(** * OP_COMMANDREPLY: decoder and accessors of [command_reply.go]

    A shallow embedding of [CommandReplyOp] (package [mongotape]) and the
    properties of its decode operation [FromReader] and of its accessors
    [getCursorId], [getNumReturned], [getLatencyMicros], [getErrors],
    [String] and [Abbreviated].

    Conventions.
    - Go's [int] is taken as the 64-bit two's-complement integer of the
      platforms the tool is built for; [int32] and [int64] likewise.  They
      are carried as [Z] and every arithmetic operation writes its
      wrap-around out ([Go.wrap]).
    - A byte slice is a [list byte]; an [io.Reader] is the list of the bytes
      that are still to be read.
    - A method with a pointer receiver takes the record and returns the
      record it leaves behind. *)

From Stdlib Require Import ZArith List String Ascii Bool Lia.
From Stdlib Require Import Init.Byte.
Import ListNotations.

Local Open Scope Z_scope.

(** ** Go's fixed-width integers *)

Module Go.

(** The two's-complement value of [z] in [bits] bits. *)
Definition wrap (bits : Z) (z : Z) : Z :=
  (z + 2 ^ (bits - 1)) mod 2 ^ bits - 2 ^ (bits - 1).

Definition int_bits : Z := 64.

Definition int_add (a b : Z) : Z := wrap int_bits (a + b).
Definition int_sub (a b : Z) : Z := wrap int_bits (a - b).

(** [int(x)] for [x] an [int32]: sign extension of the 32 stored bits. *)
Definition int_of_int32 (x : Z) : Z := wrap 32 x.

(** [int64(x)] for [x] a [time.Duration], whose underlying type is [int64]. *)
Definition int64_of_Duration (x : Z) : Z := wrap 64 x.

(** [len(s)] of a slice, an [int]. *)
Definition len {A : Type} (s : list A) : Z := Z.of_nat (List.length s).

(** Signed division of two [int64], truncated toward zero.  The only
    overflowing case is [minInt64 / -1]. *)
Definition int64_quo (a b : Z) : Z := wrap 64 (Z.quot a b).

(** [time.Microsecond], in the nanoseconds a [time.Duration] counts. *)
Definition Microsecond : Z := 1000.

(** The outcome of a call that may panic. *)
Inductive outcome (A : Type) : Type :=
| Returned (a : A)
| Panicked (msg : string).

Arguments Returned {A} a.
Arguments Panicked {A} msg.

End Go.

(** ** Bytes *)

Definition byte_to_Z (b : byte) : Z := Z.of_N (Byte.to_N b).

Definition byte_of_Z (z : Z) : byte :=
  match Byte.of_N (Z.to_N (z mod 256)) with
  | Some b => b
  | None => x00
  end.

(** The little-endian [int32] held in four bytes. *)
Definition getInt32 (b0 b1 b2 b3 : byte) : Z :=
  Go.wrap 32
    (Z.lor (byte_to_Z b0)
       (Z.lor (Z.shiftl (byte_to_Z b1) 8)
          (Z.lor (Z.shiftl (byte_to_Z b2) 16) (Z.shiftl (byte_to_Z b3) 24)))).

(** The four bytes of an [int32], little-endian. *)
Definition putInt32 (z : Z) : list byte :=
  [byte_of_Z z; byte_of_Z (Z.shiftr z 8); byte_of_Z (Z.shiftr z 16);
   byte_of_Z (Z.shiftr z 24)].

(** The declared length of a frame: its first four bytes read as [int32],
    when it has four. *)
Definition declaredLength (d : list byte) : option Z :=
  match d with
  | b0 :: b1 :: b2 :: b3 :: _ => Some (getInt32 b0 b1 b2 b3)
  | _ => None
  end.

(** ** Raw documents of the [bson] library *)

Module bson.

(** [bson.Raw]: an element kind and the bytes of the element, unparsed. *)
Record Raw : Type := { Kind : byte; Data : list byte }.

(** The zero value [bson.Raw{}]. *)
Definition zeroRaw : Raw := {| Kind := x00; Data := [] |}.

(** A document held raw: kind 0x03 and its bytes. *)
Definition document (data : list byte) : Raw := {| Kind := x03; Data := data |}.

End bson.

(** ** The record *)

(** Modelled from the spec: [MsgHeader] is declared in another file of the
    package; the spec describes it as the framing metadata of a message:
    its declared total length and its request and response identifiers, with
    the operation code.  All four are [int32] on the wire. *)
Record MsgHeader : Type := {
  MessageLength : Z;
  RequestID : Z;
  ResponseTo : Z;
  OpCode : Z
}.

(** Modelled from the spec: [MsgHeaderLen], the fixed byte length of a
    header, is declared in another file of the package: the four [int32]
    fields above, 16 bytes. *)
Definition MsgHeaderLen : Z := 16.

(** [CommandReplyOp], with the fields of the embedded [mgo.CommandReplyOp]
    ([Metadata], [CommandReply], [OutputDocs]) inlined.  [Metadata] and
    [CommandReply] are [interface{}] values: [None] is the nil interface,
    [Some raw] a [*bson.Raw].  [OutputDocs] is a slice of [interface{}], each
    a [*bson.Raw]. *)
Record CommandReplyOp : Type := {
  Header : MsgHeader;
  Metadata : option bson.Raw;
  CommandReply : option bson.Raw;
  OutputDocs : list bson.Raw;
  Docs : list bson.Raw;
  Latency : Z;
  cursorCached : bool;
  cursorId : Z
}.

(** The record as a caller creates it before decoding, [&CommandReplyOp{Header: h}]:
    every other field has its zero value. *)
Definition newCommandReplyOp (h : MsgHeader) : CommandReplyOp :=
  {| Header := h; Metadata := None; CommandReply := None; OutputDocs := [];
     Docs := []; Latency := 0; cursorCached := false; cursorId := 0 |}.

Definition set_CommandReply (op : CommandReplyOp) (v : option bson.Raw) : CommandReplyOp :=
  {| Header := Header op; Metadata := Metadata op; CommandReply := v;
     OutputDocs := OutputDocs op; Docs := Docs op; Latency := Latency op;
     cursorCached := cursorCached op; cursorId := cursorId op |}.

Definition set_Metadata (op : CommandReplyOp) (v : option bson.Raw) : CommandReplyOp :=
  {| Header := Header op; Metadata := v; CommandReply := CommandReply op;
     OutputDocs := OutputDocs op; Docs := Docs op; Latency := Latency op;
     cursorCached := cursorCached op; cursorId := cursorId op |}.

Definition set_OutputDocs (op : CommandReplyOp) (v : list bson.Raw) : CommandReplyOp :=
  {| Header := Header op; Metadata := Metadata op; CommandReply := CommandReply op;
     OutputDocs := v; Docs := Docs op; Latency := Latency op;
     cursorCached := cursorCached op; cursorId := cursorId op |}.

Definition set_cursor (op : CommandReplyOp) (cached : bool) (id : Z) : CommandReplyOp :=
  {| Header := Header op; Metadata := Metadata op; CommandReply := CommandReply op;
     OutputDocs := OutputDocs op; Docs := Docs op; Latency := Latency op;
     cursorCached := cached; cursorId := id |}.

(** ** Errors *)

(** The [error] values that reach a caller of this file's functions: the two
    failures of the frame reader, an error of a library, an error entry that
    a server reply embeds, and [fmt.Errorf] applied to a format and its
    operands. *)
Inductive error : Type :=
| TruncatedInputError
| MalformedLengthError
| LibraryError (msg : string)
| ReplyError (message : string) (code : option Z)
| Errorf (format : string) (operands : list operand)
with operand : Type :=
| OperandOp (op : CommandReplyOp)
| OperandErr (e : error).

(** ** The bound of the frame reader *)

(** The bound on a document's declared length that the frame reader enforces
    is a configured value of the package; the development takes it as a
    parameter.  [limits48M] below is the instance used to run the code on
    concrete inputs. *)
Class FrameLimits : Type := {
  MaximumDocumentSize : Z
}.

(** ** The frame reader *)

Definition Reader : Type := list byte.

Section FrameReader.

Context {limits : FrameLimits}.

(** Modelled from the spec: [ReadDocument] (the Frame Reader of section 4.1)
    is not in [command_reply.go].  It reads a 4-byte little-endian length
    prefix and returns the document of that many bytes, prefix included,
    advancing the stream by the bytes consumed.  It fails with
    [TruncatedInputError] when fewer bytes are available than declared and
    with [MalformedLengthError] when the declared length is non-positive or
    exceeds the configured bound; a declared length below 4 cannot include
    its own prefix and is rejected with the non-positive ones.  A failed
    read returns Go's zero value, the nil slice, with the error: a missing
    prefix or body leaves the stream exhausted, a rejected length leaves it
    after the prefix. *)
Definition ReadDocument (r : Reader) : list byte * option error * Reader :=
  match r with
  | b0 :: b1 :: b2 :: b3 :: rest =>
      let size := getInt32 b0 b1 b2 b3 in
      if (size <? 4) || (MaximumDocumentSize <? size) then
        ([], Some MalformedLengthError, rest)
      else if Go.len r <? size then
        ([], Some TruncatedInputError, [])
      else
        (firstn (Z.to_nat size) r, None, skipn (Z.to_nat size) r)
  | _ => ([], Some TruncatedInputError, [])
  end.

End FrameReader.

(** ** [bson.Unmarshal] into a raw document *)

(** [bson.Unmarshal(in, out)] with [out] a [*bson.Raw]: the library stores
    the bytes as a document (kind 0x03) without looking at them and returns a
    nil error; [getCursorId] relies on it when it unmarshals the stored bytes
    later.  The result is the error and what [out] points to afterwards. *)
Definition bson_Unmarshal (input : list byte) (out : bson.Raw) : option error * bson.Raw :=
  (None, bson.document input).

(** ** The decode operation *)

Section Decode.

Context {limits : FrameLimits}.

(** The loop of [FromReader] that reads the trailing documents.  The Go
    loop has no bound of its own, so the embedding counts iterations down
    from [fuel]: [None] means the loop was still running when the fuel ran
    out.  The condition is tested before the fuel, so a loop that stops
    needs no fuel to stop.

    As in the source, the error of [ReadDocument] is assigned and then
    overwritten by the result of [bson.Unmarshal] before anything reads
    it. *)
Fixpoint FromReader_loop (fuel : nat) (lengthRead docLen : Z)
    (op : CommandReplyOp) (r : Reader)
    : option (option error * CommandReplyOp * Reader) :=
  if Go.int_add lengthRead docLen
       <? Go.int_sub (Go.int_of_int32 (MessageLength (Header op))) MsgHeaderLen
  then
    match fuel with
    | O => None
    | S fuel' =>
        let '(docAsSlice, _err, r1) := ReadDocument r in
        let doc := bson.zeroRaw in
        let '(err, doc) := bson_Unmarshal docAsSlice doc in
        match err with
        | Some e => Some (Some e, op, r1)
        | None =>
            let docLen := Go.int_add docLen (Go.len docAsSlice) in
            let op := set_OutputDocs op (OutputDocs op ++ [doc]) in
            FromReader_loop fuel' lengthRead docLen op r1
        end
    end
  else Some (None, op, r).

(** [FromReader]: the error returned ([None] is nil), the record and the
    stream as the call leaves them. *)
Definition FromReader (fuel : nat) (op : CommandReplyOp) (r : Reader)
    : option (option error * CommandReplyOp * Reader) :=
  let '(commandReplyAsSlice, err, r) := ReadDocument r in
  match err with
  | Some e => Some (Some e, op, r)
  | None =>
      let op := set_CommandReply op (Some bson.zeroRaw) in
      let '(err, raw) := bson_Unmarshal commandReplyAsSlice bson.zeroRaw in
      let op := set_CommandReply op (Some raw) in
      match err with
      | Some e => Some (Some e, op, r)
      | None =>
          let '(metadataAsSlice, err, r) := ReadDocument r in
          match err with
          | Some e => Some (Some e, op, r)
          | None =>
              let op := set_Metadata op (Some bson.zeroRaw) in
              let '(err, raw) := bson_Unmarshal metadataAsSlice bson.zeroRaw in
              let op := set_Metadata op (Some raw) in
              match err with
              | Some e => Some (Some e, op, r)
              | None =>
                  let lengthRead :=
                    Go.int_add (Go.len commandReplyAsSlice) (Go.len metadataAsSlice) in
                  let op := set_OutputDocs op [] in
                  let docLen := 0 in
                  FromReader_loop fuel lengthRead docLen op r
              end
          end
      end
  end.

End Decode.

(** ** The accessors *)

(** [getNumReturned]. *)
Definition getNumReturned (op : CommandReplyOp) : Z := Go.len (Docs op).

(** [getLatencyMicros]: [int64(op.Latency / (time.Microsecond))]. *)
Definition getLatencyMicros (op : CommandReplyOp) : Z :=
  Go.int64_of_Duration (Go.int64_quo (Latency op) Go.Microsecond).

(** What a decoder of the [bson] library reports: the decoded value, or the
    error. *)
Inductive decoded (A : Type) : Type :=
| Ok (a : A)
| Failed (e : error).

Arguments Ok {A} a.
Arguments Failed {A} e.

(** The decoders of the [bson] library that the accessors call.  The library
    is not part of the package, so the accessors are stated over any decoder:
    - [bsonD] is [bson.D], a parsed document;
    - [Raw_Unmarshal_cursor raw] is [raw.Unmarshal(doc)] for [doc] the
      struct of [getCursorId], reporting the [doc.Cursor.Id] it leaves;
    - [Raw_Unmarshal_D raw] is [raw.Unmarshal(&firstDoc)] for a [bson.D]. *)
Class BsonDecoder : Type := {
  bsonD : Type;
  Raw_Unmarshal_cursor : bson.Raw -> decoded Z;
  Raw_Unmarshal_D : bson.Raw -> decoded bsonD
}.

(** [extractErrorsFromDoc] is declared in another file of the package; the
    accessors are stated over any such function. *)
Class ErrorConvention (dec : BsonDecoder) : Type := {
  extractErrorsFromDoc : bsonD -> list error
}.

(** *** Calls on a record, with the library calls counted

    An accessor with a pointer receiver runs on the record behind the
    pointer.  The state also counts the calls made to [Raw.Unmarshal] for the
    cursor, which is what a parse-count hook of a test observes. *)
Record callState : Type := {
  this : CommandReplyOp;
  unmarshalCalls : nat
}.

Definition call (A : Type) : Type := callState -> Go.outcome A * callState.

Definition ret {A : Type} (a : A) : call A := fun s => (Go.Returned a, s).

Definition bind {A B : Type} (c : call A) (k : A -> call B) : call B :=
  fun s =>
    match c s with
    | (Go.Returned a, s') => k a s'
    | (Go.Panicked msg, s') => (Go.Panicked msg, s')
    end.

Notation "x <- c ;; k" := (bind c (fun x => k))
  (at level 61, c at next level, right associativity).
Notation "c ;;; k" := (bind c (fun _ => k))
  (at level 61, right associativity).

Definition panic {A : Type} (msg : string) : call A := fun s => (Go.Panicked msg, s).

Definition load : call CommandReplyOp := fun s => (Go.Returned (this s), s).

Definition update (f : CommandReplyOp -> CommandReplyOp) : call unit :=
  fun s => (Go.Returned tt, {| this := f (this s); unmarshalCalls := unmarshalCalls s |}).

(** The type assertion [v.( *bson.Raw)] in its one-result form: it panics on
    a value that is not a [*bson.Raw]. *)
Definition assertRaw (v : option bson.Raw) : call bson.Raw :=
  match v with
  | Some raw => ret raw
  | None => panic "interface conversion: interface {} is nil, not *bson.Raw"
  end.

Section Accessors.

Context {dec : BsonDecoder} {conv : ErrorConvention dec}.

(** The library call of [getCursorId], counted. *)
Definition unmarshalCursor (raw : bson.Raw) : call (decoded Z) :=
  fun s => (Go.Returned (Raw_Unmarshal_cursor raw),
            {| this := this s; unmarshalCalls := S (unmarshalCalls s) |}).

(** [getCursorId]: the pair it returns, a cursor id and an error ([None]
    is nil). *)
Definition getCursorId : call (Z * option error) :=
  op <- load ;;
  if cursorCached op then ret (cursorId op, None)
  else
    replyArgs <- assertRaw (CommandReply op) ;;
    err <- unmarshalCursor replyArgs ;;
    match err with
    | Failed err =>
        ret (0, Some (Errorf "failed to unmarshal bson.Raw into struct: %v" [OperandErr err]))
    | Ok id =>
        update (fun op => set_cursor op true (cursorId op)) ;;;
        update (fun op => set_cursor op (cursorCached op) id) ;;;
        op <- load ;;
        ret (cursorId op, None)
    end.

(** [n] calls of [getCursorId] in a row: what each returned, first call
    first, and the state left. *)
Fixpoint getCursorId_times (n : nat) (s : callState)
    : list (Go.outcome (Z * option error)) * callState :=
  match n with
  | O => ([], s)
  | S n' =>
      let '(r, s1) := getCursorId s in
      let '(rs, s2) := getCursorId_times n' s1 in
      (r :: rs, s2)
  end.

(** [getErrors]. *)
Definition getErrors (op : CommandReplyOp) : Go.outcome (list error) :=
  match Docs op with
  | [] => Go.Returned []
  | doc0 :: _ =>
      match Raw_Unmarshal_D doc0 with
      | Failed _ => Go.Panicked "failed to unmarshal Raw into bson.D"
      | Ok firstDoc => Go.Returned (extractErrorsFromDoc firstDoc)
      end
  end.

End Accessors.

(** ** Rendering *)

Local Open Scope string_scope.

(** [fmt.Sprintf] on operands that are all strings, for the verbs [%v] and
    [%s] (a string printed as it is) and for [%%].  An operand that no verb
    consumed is reported after the text in an [EXTRA] note and a verb without
    operand as [MISSING], as the [fmt] package documents.  Other verbs do not
    occur in the formats of this file; the model prints them as written. *)
Fixpoint Sprintf_extra (operands : list string) : string :=
  match operands with
  | [] => ""
  | [a] => "string=" ++ a
  | a :: more => "string=" ++ a ++ ", " ++ Sprintf_extra more
  end.

Fixpoint Sprintf (format : string) (operands : list string) : string :=
  match format with
  | EmptyString =>
      match operands with
      | [] => ""
      | _ => "%!(EXTRA " ++ Sprintf_extra operands ++ ")"
      end
  | String c rest =>
      if Ascii.eqb c "%" then
        match rest with
        | EmptyString => "%!(NOVERB)" ++ Sprintf rest operands
        | String verb rest' =>
            if Ascii.eqb verb "v" || Ascii.eqb verb "s" then
              match operands with
              | a :: more => a ++ Sprintf rest' more
              | [] => "%!" ++ String verb "(MISSING)" ++ Sprintf rest' []
              end
            else if Ascii.eqb verb "%" then String "%" (Sprintf rest' operands)
            else String c (String verb (Sprintf rest' operands))
        end
      else String c (Sprintf rest operands)
  end.

(** The values that [getOpBodyString] hands to [ConvertBSONValueToJSON]: an
    [interface{}] holding a [*bson.Raw] or nil, or the slice [OutputDocs]. *)
Inductive goValue : Type :=
| Iface (v : option bson.Raw)
| IfaceSlice (docs : list bson.Raw).

(** What rendering relies on and is declared elsewhere: the package's
    [ConvertBSONValueToJSON] and [Abbreviate], [json.Marshal] of the standard
    library (its bytes taken as a string), and the text of an error,
    [err.Error()], which is what [%v] prints for it. *)
Class Rendering : Type := {
  JSON : Type;
  ConvertBSONValueToJSON : goValue -> decoded JSON;
  json_Marshal : JSON -> decoded string;
  Abbreviate : string -> Z -> string;
  Error_text : error -> string
}.

Section Render.

Context {rnd : Rendering}.

(** One [ConvertBSONValueToJSON] and [json.Marshal] step of
    [getOpBodyString], with the error the function returns for either
    failure. *)
Definition renderJSON (op : CommandReplyOp) (v : goValue) : decoded string :=
  match ConvertBSONValueToJSON v with
  | Failed err =>
      Failed (Errorf "ConvertBSONValueToJSON err: %#v - %v" [OperandOp op; OperandErr err])
  | Ok doc =>
      match json_Marshal doc with
      | Failed err => Failed (Errorf "json marshal err: %#v - %v" [OperandOp op; OperandErr err])
      | Ok asJson => Ok asJson
      end
  end.

(** [getOpBodyString]. *)
Definition getOpBodyString (op : CommandReplyOp) : string * string * string * option error :=
  match renderJSON op (Iface (CommandReply op)) with
  | Failed e => ("", "", "", Some e)
  | Ok commandReplyAsJson =>
      match renderJSON op (Iface (Metadata op)) with
      | Failed e => ("", "", "", Some e)
      | Ok metadataAsJson =>
          if negb (Z.eqb (Go.len (OutputDocs op)) 0) then
            match renderJSON op (IfaceSlice (OutputDocs op)) with
            | Failed e => ("", "", "", Some e)
            | Ok outputDocsAsJson =>
                (commandReplyAsJson, metadataAsJson, outputDocsAsJson, None)
            end
          else (commandReplyAsJson, metadataAsJson, "", None)
      end
  end.

(** [String]; the name is primed here because [String] is the constructor of strings. *)
Definition String' (op : CommandReplyOp) : string :=
  let '(commandReplyString, metadataString, outputDocsString, err) := getOpBodyString op in
  match err with
  | Some err => Sprintf "%v" [Error_text err]
  | None =>
      Sprintf "CommandReply %v %v %v" [commandReplyString; metadataString; outputDocsString]
  end.

(** [Abbreviated]. *)
Definition Abbreviated (op : CommandReplyOp) (chars : Z) : string :=
  let '(commandReplyString, metadataString, outputDocsString, err) := getOpBodyString op in
  match err with
  | Some err => Sprintf "%v" [Error_text err]
  | None =>
      Sprintf "CommandReply %v %v"
        [Abbreviate commandReplyString chars; Abbreviate metadataString chars;
         Abbreviate outputDocsString chars]
  end.

End Render.

Local Close Scope string_scope.

(** ** Metadata of the operation *)

(** Modelled from the spec: [OpMetadata] is declared in another file of the
    package; [Meta] builds it from four positional values, an operation
    name, two strings and the summary map the spec describes, from a key to
    an [interface{}] value.  The map literal has three distinct keys and is
    kept as the list of its entries. *)
Record OpMetadata : Type := {
  Op : string;
  Ns : string;
  Command : string;
  Data : list (string * goValue)
}.

(** [Meta]. *)
Definition Meta (op : CommandReplyOp) : OpMetadata :=
  {| Op := "op_commandreply";
     Ns := "";
     Command := "";
     Data := [("metadata"%string, Iface (Metadata op));
              ("command_reply"%string, Iface (CommandReply op));
              ("output_docs"%string, IfaceSlice (OutputDocs op))] |}.

(** ** A reference decoder for a fragment of BSON

    The accessors are stated over any decoder.  To run them on concrete
    records this module decodes the documents whose elements are 32-bit
    integers (kind 0x10), 64-bit integers (0x12), strings (0x02) and embedded
    documents (0x03), following the BSON format; a document whose framing is
    broken, or that holds an element of another kind, is reported as corrupt. *)

Module Fragment.

#[warnings="-register-all"]
Inductive value : Type :=
| Int32 (z : Z)
| Int64 (z : Z)
| Str (s : string)
| Document (elems : list (string * value)).

Definition document : Type := list (string * value).

Definition corrupted {A : Type} : decoded A :=
  Failed (LibraryError "Document is corrupted").

(** The unsigned little-endian number held in [bs]. *)
Definition unsignedLE (bs : list byte) : Z :=
  fold_right (fun b acc => byte_to_Z b + 256 * acc) 0 bs.

Definition takeInt (width : nat) (bs : list byte) : option (Z * list byte) :=
  if (width <=? List.length bs)%nat
  then Some (Go.wrap (8 * Z.of_nat width) (unsignedLE (firstn width bs)), skipn width bs)
  else None.

(** A NUL-terminated name. *)
Fixpoint cstring (bs : list byte) : option (string * list byte) :=
  match bs with
  | [] => None
  | b :: rest =>
      if Byte.eqb b x00 then Some (EmptyString, rest)
      else
        match cstring rest with
        | Some (s, rest') => Some (String (ascii_of_byte b) s, rest')
        | None => None
        end
  end.

(** A length-prefixed block that ends in NUL: what lies between the prefix
    and the NUL, and what follows the block.  [self] tells whether the
    length counts the prefix (documents) or not (strings). *)
Definition block (self : bool) (bs : list byte) : option (list byte * list byte) :=
  match takeInt 4 bs with
  | None => None
  | Some (n, rest) =>
      let inner := if self then n - 4 else n in
      if (inner <? 1) || (Go.len rest <? inner) then None
      else
        let body := firstn (Z.to_nat inner) rest in
        match rev body with
        | last :: front =>
            if Byte.eqb last x00 then Some (rev front, skipn (Z.to_nat inner) rest)
            else None
        | [] => None
        end
  end.

Fixpoint elements (fuel : nat) (bs : list byte) : option document :=
  match fuel with
  | O => None
  | S fuel' =>
      match bs with
      | [] => Some []
      | kind :: bs =>
          match cstring bs with
          | None => None
          | Some (name, bs) =>
              let more (v : value) (bs : list byte) :=
                match elements fuel' bs with
                | Some d => Some ((name, v) :: d)
                | None => None
                end in
              if Byte.eqb kind x10 then
                match takeInt 4 bs with
                | Some (z, bs) => more (Int32 z) bs
                | None => None
                end
              else if Byte.eqb kind x12 then
                match takeInt 8 bs with
                | Some (z, bs) => more (Int64 z) bs
                | None => None
                end
              else if Byte.eqb kind x02 then
                match block false bs with
                | Some (s, bs) => more (Str (string_of_list_byte s)) bs
                | None => None
                end
              else if Byte.eqb kind x03 then
                match block true bs with
                | Some (inner, bs) =>
                    match elements fuel' inner with
                    | Some d => more (Document d) bs
                    | None => None
                    end
                | None => None
                end
              else None
          end
      end
  end.

(** [raw.Unmarshal] into a [bson.D]. *)
Definition unmarshalD (raw : bson.Raw) : decoded document :=
  if Byte.eqb (bson.Kind raw) x03 then
    match block true (bson.Data raw) with
    | Some (inner, _) =>
        match elements (S (List.length inner)) inner with
        | Some d => Ok d
        | None => corrupted
        end
    | None => corrupted
    end
  else corrupted.

(** The first value under [key]. *)
Fixpoint find (key : string) (d : document) : option value :=
  match d with
  | [] => None
  | (k, v) :: d' => if String.eqb k key then Some v else find key d'
  end.

(** [raw.Unmarshal] into the struct of [getCursorId]: the integer under
    [cursor.id], and Go's zero where the document has none; a repeated key
    sets the field again, so its last occurrence counts. *)
Definition unmarshalCursor (raw : bson.Raw) : decoded Z :=
  match unmarshalD raw with
  | Failed e => Failed e
  | Ok d =>
      match find "cursor" (rev d) with
      | Some (Document c) =>
          match find "id" (rev c) with
          | Some (Int32 z) | Some (Int64 z) => Ok z
          | _ => Ok 0
          end
      | _ => Ok 0
      end
  end.

(** Modelled from the spec: [extractErrorsFromDoc] is declared in another
    file of the package.  The spec names the shared error-field convention
    by its fields [$err], [errmsg] and [code]: one error entry for the
    message under [$err] and one for the message under [errmsg], each
    carrying the number under [code] when the document has one. *)
Definition extractErrors (d : document) : list error :=
  let code :=
    match find "code" d with
    | Some (Int32 z) | Some (Int64 z) => Some z
    | _ => None
    end in
  let entry (key : string) :=
    match find key d with
    | Some (Str m) => [ReplyError m code]
    | _ => []
    end in
  entry "$err"%string ++ entry "errmsg"%string.

(** The bytes of a value of the fragment, with its kind. *)
Fixpoint encode (v : value) : byte * list byte :=
  match v with
  | Int32 z => (x10, putInt32 z)
  | Int64 z => (x12, putInt32 z ++ putInt32 (Z.shiftr z 32))
  | Str s =>
      let bs := list_byte_of_string s in
      (x02, putInt32 (Go.len bs + 1) ++ bs ++ [x00])
  | Document elems =>
      let body :=
        (fix go (l : list (string * value)) : list byte :=
           match l with
           | [] => []
           | (k, v') :: l' =>
               let '(kind, bs) := encode v' in
               kind :: list_byte_of_string k ++ [x00] ++ bs ++ go l'
           end) elems in
      (x03, putInt32 (4 + Go.len body + 1) ++ body ++ [x00])
  end.

Definition bytes (d : document) : list byte := snd (encode (Document d)).

End Fragment.

Definition fragmentDecoder : BsonDecoder :=
  {| bsonD := Fragment.document;
     Raw_Unmarshal_cursor := Fragment.unmarshalCursor;
     Raw_Unmarshal_D := Fragment.unmarshalD |}.

Definition fragmentConvention : ErrorConvention fragmentDecoder :=
  Build_ErrorConvention fragmentDecoder Fragment.extractErrors.

(** ** Concrete inputs *)

(** The instance used to run the decoder: a 48 MB bound on a document. *)
Definition limits48M : FrameLimits :=
  {| MaximumDocumentSize := 48 * 1000 * 1000 |}.

(** The header of a message whose payload is [n] bytes long. *)
Definition headerFor (n : Z) : MsgHeader :=
  {| MessageLength := MsgHeaderLen + n; RequestID := 1; ResponseTo := 0; OpCode := 2011 |}.

(** The empty document, 5 bytes. *)
Definition emptyDoc : list byte := Fragment.bytes [].

(** [{ok: 1, cursor: {id: 42}}], 38 bytes. *)
Definition cursorDoc : list byte :=
  Fragment.bytes
    [("ok"%string, Fragment.Int32 1);
     ("cursor"%string, Fragment.Document [("id"%string, Fragment.Int64 42)])].

(** [{x: 1}], 12 bytes. *)
Definition xDoc : list byte := Fragment.bytes [("x"%string, Fragment.Int32 1)].

(** [{$err: "boom", code: 17}], 30 bytes. *)
Definition boomDoc : list byte :=
  Fragment.bytes
    [("$err"%string, Fragment.Str "boom"); ("code"%string, Fragment.Int32 17)].

(** A frame of 5 bytes that is not a document: it ends in 0x01 where a
    document ends in NUL. *)
Definition corruptDoc : list byte := [x05; x00; x00; x00; x01].

(** The record that [FromReader] leaves, from a new record under header
    [h], for the frames [primary], [metadata] and [outs]. *)
Definition replyOf (h : MsgHeader) (primary metadata : list byte)
    (outs : list (list byte)) : CommandReplyOp :=
  {| Header := h;
     Metadata := Some (bson.document metadata);
     CommandReply := Some (bson.document primary);
     OutputDocs := map bson.document outs;
     Docs := []; Latency := 0; cursorCached := false; cursorId := 0 |}.

(** A record whose [Docs] hold one document, as the code that receives a
    reply from a live server fills them. *)
Definition withDocs (op : CommandReplyOp) (docs : list bson.Raw) : CommandReplyOp :=
  {| Header := Header op; Metadata := Metadata op; CommandReply := CommandReply op;
     OutputDocs := OutputDocs op; Docs := docs; Latency := Latency op;
     cursorCached := cursorCached op; cursorId := cursorId op |}.

Definition withLatency (op : CommandReplyOp) (d : Z) : CommandReplyOp :=
  {| Header := Header op; Metadata := Metadata op; CommandReply := CommandReply op;
     OutputDocs := OutputDocs op; Docs := Docs op; Latency := d;
     cursorCached := cursorCached op; cursorId := cursorId op |}.

(** The state in which a test starts counting the parses of a record. *)
Definition fresh (op : CommandReplyOp) : callState :=
  {| this := op; unmarshalCalls := 0 |}.

(** The record decoded from a stream whose first frame is not a document. *)
Definition corruptReply : CommandReplyOp := replyOf (headerFor 10) corruptDoc emptyDoc [].

(** The record decoded from the reply document, the empty metadata document
    and the output document [{$err: "boom", code: 17}]. *)
Definition boomReply : CommandReplyOp := replyOf (headerFor 73) cursorDoc emptyDoc [boomDoc].

(** ** Vocabulary of the statements *)

(** A well-formed frame: its first four bytes declare its own length, which
    the frame reader accepts. *)
Definition well_formed {limits : FrameLimits} (d : list byte) : Prop :=
  declaredLength d = Some (Go.len d) /\ 4 <= Go.len d <= MaximumDocumentSize.

(** The total byte length of a sequence of frames. *)
Definition totalLen (ds : list (list byte)) : Z := Go.len (List.concat ds).

(** The target of the decode loop for a header: the payload length it
    declares, [int(op.Header.MessageLength) - MsgHeaderLen]. *)
Definition target (h : MsgHeader) : Z :=
  Go.int_sub (Go.int_of_int32 (MessageLength h)) MsgHeaderLen.

(** [untouched op op']: [op'] has the fields of [op] that [FromReader] never
    assigns. *)
Definition untouched (op op' : CommandReplyOp) : Prop :=
  Header op' = Header op /\ Docs op' = Docs op /\ Latency op' = Latency op
  /\ cursorCached op' = cursorCached op /\ cursorId op' = cursorId op.

(** The state after one counted parse that left the record alone, and after
    one that set the memo to [id]. *)
Definition counted (s : callState) : callState :=
  {| this := this s; unmarshalCalls := S (unmarshalCalls s) |}.

Definition memoized (s : callState) (id : Z) : callState :=
  {| this := set_cursor (this s) true id; unmarshalCalls := S (unmarshalCalls s) |}.

(** The error [getCursorId] builds around a failure [e] of the library. *)
Definition unmarshalFailure (e : error) : error :=
  Errorf "failed to unmarshal bson.Raw into struct: %v" [OperandErr e].

(** The bytes a record holds decoded: those of its reply document, of its
    metadata document and of its output documents. *)
Definition rawLen (v : option bson.Raw) : Z :=
  match v with
  | Some raw => Go.len (bson.Data raw)
  | None => 0
  end.

Definition dataLen (docs : list bson.Raw) : Z := totalLen (map bson.Data docs).

Definition decodedLen (op : CommandReplyOp) : Z :=
  rawLen (CommandReply op) + rawLen (Metadata op) + dataLen (OutputDocs op).

(** [decodedInto op other]: the record [op] with the three decoded fields of
    [other] in place of its own. *)
Definition decodedInto (op other : CommandReplyOp) : CommandReplyOp :=
  {| Header := Header op;
     Metadata := Metadata other;
     CommandReply := CommandReply other;
     OutputDocs := OutputDocs other;
     Docs := Docs op; Latency := Latency op;
     cursorCached := cursorCached op; cursorId := cursorId op |}.

(** What the frame reader returns for a stream: the slice, the error and the
    stream it leaves. *)
Definition readSlice {limits : FrameLimits} (r : Reader) : list byte :=
  fst (fst (ReadDocument r)).

Definition readError {limits : FrameLimits} (r : Reader) : option error :=
  snd (fst (ReadDocument r)).

Definition readRest {limits : FrameLimits} (r : Reader) : Reader :=
  snd (ReadDocument r).

(** A call that panicked. *)
Definition panicked {A : Type} (r : Go.outcome A) : Prop :=
  match r with
  | Go.Panicked _ => True
  | Go.Returned _ => False
  end.

(** A decoded record whose cursor id, 42, has been memoized. *)
Definition memoReply : CommandReplyOp :=
  set_cursor (replyOf (headerFor 55) cursorDoc emptyDoc [xDoc]) true 42.

(** [sameButMemo op op']: [op'] is [op] but for the cursor memo. *)
Definition sameButMemo (op op' : CommandReplyOp) : Prop :=
  Header op' = Header op /\ Metadata op' = Metadata op
  /\ CommandReply op' = CommandReply op /\ OutputDocs op' = OutputDocs op
  /\ Docs op' = Docs op /\ Latency op' = Latency op.

(** * Properties *)

(** Closed comparisons between integers and between byte strings, settled by
    evaluation. *)
Ltac evaluate :=
  vm_compute;
  repeat match goal with |- _ /\ _ => split end;
  first [ reflexivity | let H := fresh in intro H; discriminate H ].

(** ** Integers *)

Lemma wrap_small (bits z : Z) :
  0 < bits -> - 2 ^ (bits - 1) <= z < 2 ^ (bits - 1) -> Go.wrap bits z = z.
Proof.
  intros Hbits Hz. unfold Go.wrap.
  assert (Hpow : 2 ^ bits = 2 * 2 ^ (bits - 1)).
  { replace bits with (Z.succ (bits - 1)) at 1 by lia.
    rewrite Z.pow_succ_r by lia. reflexivity. }
  rewrite Z.mod_small by lia. lia.
Qed.

Lemma wrap_range (bits z : Z) :
  0 < bits -> - 2 ^ (bits - 1) <= Go.wrap bits z < 2 ^ (bits - 1).
Proof.
  intros Hbits. unfold Go.wrap.
  assert (Hpow : 2 ^ bits = 2 * 2 ^ (bits - 1)).
  { replace bits with (Z.succ (bits - 1)) at 1 by lia.
    rewrite Z.pow_succ_r by lia. reflexivity. }
  assert (Hpos : 0 < 2 ^ (bits - 1)) by (apply Z.pow_pos_nonneg; lia).
  pose proof (Z.mod_pos_bound (z + 2 ^ (bits - 1)) (2 ^ bits)) as Hm.
  lia.
Qed.

Lemma int_add_small (a b : Z) :
  - 2 ^ 63 <= a + b < 2 ^ 63 -> Go.int_add a b = a + b.
Proof. intros H. unfold Go.int_add, Go.int_bits. apply wrap_small; simpl; lia. Qed.

(** The target of the decode loop, [int(op.Header.MessageLength) - MsgHeaderLen],
    never wraps: it is the header's 32-bit length less 16. *)
Lemma target_eq (ml : Z) :
  Go.int_sub (Go.int_of_int32 ml) MsgHeaderLen = Go.int_of_int32 ml - MsgHeaderLen.
Proof.
  unfold Go.int_sub, Go.int_bits, Go.int_of_int32, MsgHeaderLen.
  pose proof (wrap_range 32 ml ltac:(lia)) as H. simpl in H.
  apply wrap_small; simpl; lia.
Qed.

Lemma int_of_int32_id (ml : Z) :
  - 2 ^ 31 <= ml < 2 ^ 31 -> Go.int_of_int32 ml = ml.
Proof. intros H. apply wrap_small; simpl; lia. Qed.

Lemma len_app {A : Type} (l1 l2 : list A) : Go.len (l1 ++ l2) = Go.len l1 + Go.len l2.
Proof. unfold Go.len. rewrite length_app. lia. Qed.

Lemma len_nonneg {A : Type} (l : list A) : 0 <= Go.len l.
Proof. unfold Go.len. lia. Qed.

(** ** Frames *)

Lemma totalLen_cons (d : list byte) (ds : list (list byte)) :
  totalLen (d :: ds) = Go.len d + totalLen ds.
Proof. unfold totalLen. simpl. apply len_app. Qed.

Lemma totalLen_app (ds1 ds2 : list (list byte)) :
  totalLen (ds1 ++ ds2) = totalLen ds1 + totalLen ds2.
Proof. unfold totalLen. rewrite List.concat_app. apply len_app. Qed.

Lemma totalLen_nonneg (ds : list (list byte)) : 0 <= totalLen ds.
Proof. apply len_nonneg. Qed.

Section DecodeFacts.

Context {limits : FrameLimits}.

Lemma well_formed_int32 (d : list byte) : well_formed d -> 4 <= Go.len d < 2 ^ 31.
Proof.
  intros [Hdecl Hlen]. split; [lia|].
  destruct d as [|b0 [|b1 [|b2 [|b3 tl]]]]; try discriminate.
  unfold declaredLength in Hdecl. injection Hdecl as Hdecl.
  rewrite <- Hdecl. unfold getInt32.
  match goal with |- Go.wrap 32 ?w < _ => pose proof (wrap_range 32 w ltac:(lia)) as H end.
  change (32 - 1) with 31 in H. lia.
Qed.

(** The frame reader returns a well-formed frame at the head of the stream
    whole, and leaves the stream right behind it. *)
Lemma ReadDocument_well_formed (d : list byte) (rest : Reader) :
  well_formed d -> ReadDocument (d ++ rest) = (d, None, rest).
Proof.
  intros [Hdecl Hlen].
  destruct d as [|b0 [|b1 [|b2 [|b3 tl]]]]; try discriminate.
  unfold declaredLength in Hdecl. injection Hdecl as Hdecl.
  set (d := b0 :: b1 :: b2 :: b3 :: tl) in *.
  change (ReadDocument (d ++ rest)) with
    (let size := getInt32 b0 b1 b2 b3 in
     if (size <? 4) || (MaximumDocumentSize <? size) then
       ([], Some MalformedLengthError, tl ++ rest)
     else if Go.len (d ++ rest) <? size then ([], Some TruncatedInputError, [])
     else (firstn (Z.to_nat size) (d ++ rest), None, skipn (Z.to_nat size) (d ++ rest))).
  cbv zeta. rewrite Hdecl.
  replace (Go.len d <? 4) with false by (symmetry; apply Z.ltb_ge; lia).
  replace (MaximumDocumentSize <? Go.len d) with false by (symmetry; apply Z.ltb_ge; lia).
  cbn [orb]. rewrite len_app.
  replace (Go.len d + Go.len rest <? Go.len d) with false
    by (symmetry; apply Z.ltb_ge; pose proof (len_nonneg rest); lia).
  unfold Go.len. rewrite Nat2Z.id.
  rewrite firstn_app, Nat.sub_diag, firstn_all, firstn_O, app_nil_r.
  rewrite skipn_app, Nat.sub_diag, skipn_all. reflexivity.
Qed.

(** One unfolding of the loop, whatever the fuel. *)
Lemma FromReader_loop_eq (fuel : nat) (lengthRead docLen : Z)
    (op : CommandReplyOp) (r : Reader) :
  FromReader_loop fuel lengthRead docLen op r =
  if Go.int_add lengthRead docLen <? target (Header op) then
    match fuel with
    | O => None
    | S fuel' =>
        match bson_Unmarshal (fst (fst (ReadDocument r))) bson.zeroRaw with
        | (Some e, _) => Some (Some e, op, snd (ReadDocument r))
        | (None, doc) =>
            FromReader_loop fuel' lengthRead
              (Go.int_add docLen (Go.len (fst (fst (ReadDocument r)))))
              (set_OutputDocs op (OutputDocs op ++ [doc])) (snd (ReadDocument r))
        end
    end
  else Some (None, op, r).
Proof.
  unfold target. destruct fuel; cbn [FromReader_loop]; [reflexivity|].
  destruct (ReadDocument r) as [[docAsSlice err] r1]. reflexivity.
Qed.

Lemma set_OutputDocs_twice (op : CommandReplyOp) (v w : list bson.Raw) :
  set_OutputDocs (set_OutputDocs op v) w = set_OutputDocs op w.
Proof. reflexivity. Qed.

(** The loop on a stream that starts with well-formed frames, each of
    which begins before the target and the last of which reaches it: with
    one unit of fuel per frame it reads them all, appends them in order and
    stops right behind the last. *)
Lemma FromReader_loop_reads (outs : list (list byte)) :
  forall (fuel : nat) (lengthRead docLen : Z) (op : CommandReplyOp) (rest : Reader),
    Forall well_formed outs ->
    0 <= lengthRead -> 0 <= docLen ->
    lengthRead + docLen + totalLen outs < 2 ^ 63 ->
    (forall pre d post, outs = pre ++ d :: post ->
       lengthRead + docLen + totalLen pre < target (Header op)) ->
    target (Header op) <= lengthRead + docLen + totalLen outs ->
    (List.length outs <= fuel)%nat ->
    FromReader_loop fuel lengthRead docLen op (List.concat outs ++ rest)
    = Some (None, set_OutputDocs op (OutputDocs op ++ map bson.document outs), rest).
Proof.
  induction outs as [|d outs IH]; intros fuel lengthRead docLen op rest
    Hwf Hlr Hdl Hbound Hstart Hreach Hfuel.
  - rewrite FromReader_loop_eq.
    unfold totalLen, Go.len in Hreach, Hbound. cbn in Hreach, Hbound.
    rewrite int_add_small by lia.
    replace (lengthRead + docLen <? target (Header op)) with false
      by (symmetry; apply Z.ltb_ge; lia).
    cbn [List.concat map app]. rewrite app_nil_r.
    destruct op; reflexivity.
  - inversion Hwf as [|d' outs' Hd Houts]; subst.
    pose proof (well_formed_int32 d Hd) as Hd32.
    pose proof (totalLen_nonneg outs) as Hnn.
    rewrite totalLen_cons in Hbound, Hreach.
    rewrite FromReader_loop_eq.
    rewrite int_add_small by lia.
    pose proof (Hstart [] d outs eq_refl) as Hfirst.
    change (totalLen []) with 0 in Hfirst.
    replace (lengthRead + docLen <? target (Header op)) with true
      by (symmetry; apply Z.ltb_lt; lia).
    destruct fuel as [|fuel]; [cbn in Hfuel; lia|].
    cbn [List.concat]. rewrite <- app_assoc.
    rewrite (ReadDocument_well_formed d (List.concat outs ++ rest) Hd).
    cbn [fst snd bson_Unmarshal].
    rewrite int_add_small by lia.
    rewrite IH.
    + rewrite set_OutputDocs_twice. cbn [OutputDocs set_OutputDocs map].
      rewrite <- app_assoc. reflexivity.
    + exact Houts.
    + exact Hlr.
    + lia.
    + lia.
    + intros pre d0 post Heq. cbn [Header set_OutputDocs].
      pose proof (Hstart (d :: pre) d0 post) as H.
      rewrite totalLen_cons in H. cbn [app] in H.
      rewrite Heq in H. specialize (H eq_refl). lia.
    + cbn [Header set_OutputDocs]. lia.
    + cbn in Hfuel. lia.
Qed.

End DecodeFacts.

(** ** Decoding *)

Section DecodeTheorems.

Context {limits : FrameLimits}.

(** [FromReader] on a stream that starts with a primary frame, a metadata
    frame and trailing frames, each trailing frame beginning before the
    target and the last one reaching it. *)
Lemma FromReader_reads (op : CommandReplyOp) (primary metadata : list byte)
    (outs : list (list byte)) (rest : Reader) (fuel : nat) :
  Forall well_formed (primary :: metadata :: outs) ->
  totalLen (primary :: metadata :: outs) < 2 ^ 63 ->
  (forall pre d post, outs = pre ++ d :: post ->
     totalLen (primary :: metadata :: pre) < target (Header op)) ->
  target (Header op) <= totalLen (primary :: metadata :: outs) ->
  (List.length outs <= fuel)%nat ->
  FromReader fuel op (List.concat (primary :: metadata :: outs) ++ rest)
  = Some (None,
          set_OutputDocs
            (set_Metadata (set_CommandReply op (Some (bson.document primary)))
               (Some (bson.document metadata)))
            (map bson.document outs),
          rest).
Proof.
  intros Hwf Hbound Hstart Hreach Hfuel.
  inversion Hwf as [|? ? Hp Hwf']; subst.
  inversion Hwf' as [|? ? Hm Houts]; subst.
  pose proof (well_formed_int32 _ Hp) as Hp32.
  pose proof (well_formed_int32 _ Hm) as Hm32.
  rewrite !totalLen_cons in Hbound, Hreach.
  unfold FromReader. cbn [List.concat]. rewrite <- !app_assoc.
  rewrite (ReadDocument_well_formed primary _ Hp). cbn [bson_Unmarshal].
  rewrite (ReadDocument_well_formed metadata _ Hm). cbn [bson_Unmarshal].
  rewrite int_add_small by lia.
  rewrite FromReader_loop_reads; try assumption; try lia.
  - reflexivity.
  - intros pre d post Heq. cbn [Header set_OutputDocs set_Metadata set_CommandReply].
    specialize (Hstart pre d post Heq). rewrite !totalLen_cons in Hstart. lia.
  - cbn [Header set_OutputDocs set_Metadata set_CommandReply]. lia.
Qed.

(** C1.  A payload of N >= 2 well-formed frames packed back to back, under
    a header that declares exactly their total length (plus the header's own
    16 bytes), decodes without error once the fuel covers the N-2 trailing
    frames: the first frame becomes the command reply, the second the
    metadata, the other N-2 the output documents, byte for byte and in wire
    order; the stream is left right behind the payload, so the bytes
    consumed are the declared length less the header length. *)
Theorem FromReader_exact_frames (op : CommandReplyOp) (primary metadata : list byte)
    (outs : list (list byte)) (rest : Reader) (fuel : nat) :
  Forall well_formed (primary :: metadata :: outs) ->
  - 2 ^ 31 <= MessageLength (Header op) < 2 ^ 31 ->
  MessageLength (Header op) = MsgHeaderLen + totalLen (primary :: metadata :: outs) ->
  (List.length outs <= fuel)%nat ->
  exists op',
    FromReader fuel op (List.concat (primary :: metadata :: outs) ++ rest)
    = Some (None, op', rest)
    /\ CommandReply op' = Some (bson.document primary)
    /\ Metadata op' = Some (bson.document metadata)
    /\ OutputDocs op' = map bson.document outs
    /\ Go.len (List.concat (primary :: metadata :: outs) ++ rest) - Go.len rest
       = Go.int_sub (Go.int_of_int32 (MessageLength (Header op))) MsgHeaderLen.
Proof.
  intros Hwf H32 Hexact Hfuel.
  assert (Htarget : target (Header op) = totalLen (primary :: metadata :: outs)).
  { unfold target. rewrite target_eq, int_of_int32_id by exact H32. lia. }
  eexists. split; [|split; [|split; [|split]]].
  - apply FromReader_reads; try assumption.
    + unfold MsgHeaderLen in Hexact. lia.
    + intros pre d post Heq. rewrite Htarget, Heq.
      assert (Hd : well_formed d).
      { inversion Hwf as [|? ? _ Hwf']; subst. inversion Hwf' as [|? ? _ Houts]; subst.
        rewrite Forall_forall in Houts. apply Houts, in_elt. }
      pose proof (well_formed_int32 d Hd) as Hd32.
      pose proof (totalLen_nonneg post) as Hpost.
      rewrite !totalLen_cons, totalLen_app, totalLen_cons. lia.
    + lia.
  - reflexivity.
  - reflexivity.
  - reflexivity.
  - fold (target (Header op)). rewrite Htarget, len_app. unfold totalLen. lia.
Qed.

(** C2, as the code has it.  When the declared length ends strictly inside
    a trailing frame that the stream holds whole, [FromReader] raises no
    error: it reads that frame to its end, appends it to the output
    documents like the frames before it, and returns nil with more bytes
    consumed than the header declared. *)
Theorem FromReader_overshoot (op : CommandReplyOp) (primary metadata : list byte)
    (pre : list (list byte)) (last : list byte) (rest : Reader) (fuel : nat) :
  Forall well_formed (primary :: metadata :: pre ++ [last]) ->
  totalLen (primary :: metadata :: pre) < target (Header op)
    < totalLen (primary :: metadata :: pre ++ [last]) ->
  (List.length pre < fuel)%nat ->
  exists op',
    FromReader fuel op (List.concat (primary :: metadata :: pre ++ [last]) ++ rest)
    = Some (None, op', rest)
    /\ OutputDocs op' = map bson.document pre ++ [bson.document last]
    /\ target (Header op)
       < Go.len (List.concat (primary :: metadata :: pre ++ [last]) ++ rest) - Go.len rest.
Proof.
  intros Hwf [Hlow Hhigh] Hfuel.
  eexists. split; [|split].
  - apply FromReader_reads; try assumption.
    + assert (Hlast : well_formed last).
      { rewrite !Forall_cons_iff, Forall_app, Forall_cons_iff in Hwf. tauto. }
      pose proof (well_formed_int32 last Hlast) as H32.
      assert (Ht : target (Header op) < 2 ^ 31).
      { unfold target. rewrite target_eq. unfold MsgHeaderLen.
        pose proof (wrap_range 32 (MessageLength (Header op)) ltac:(lia)) as H.
        unfold Go.int_of_int32. change (32 - 1) with 31 in H. lia. }
      rewrite !totalLen_cons, totalLen_app, totalLen_cons in *.
      change (totalLen []) with 0. lia.
    + intros pre0 d post Heq.
      assert (Hle : totalLen pre0 <= totalLen pre).
      { destruct post as [|d' post] using rev_ind.
        - apply app_inj_tail in Heq. destruct Heq as [<- _]. lia.
        - clear IHpost. rewrite app_comm_cons, app_assoc in Heq.
          apply app_inj_tail in Heq. destruct Heq as [-> _].
          rewrite totalLen_app. pose proof (totalLen_nonneg (d :: post)). lia. }
      rewrite !totalLen_cons in *. lia.
    + lia.
    + rewrite length_app. cbn. lia.
  - cbn [OutputDocs set_OutputDocs]. rewrite map_app. reflexivity.
  - rewrite len_app. fold (totalLen (primary :: metadata :: pre ++ [last])). lia.
Qed.

End DecodeTheorems.

(** C2, the claim refuted.  The payload is the 38-byte reply document, the
    empty metadata document and the 12-byte document [{x: 1}], 55 bytes in
    all; the header declares 50 payload bytes, which end inside the third
    frame.  [FromReader] returns a nil error and a record whose output
    documents hold that frame. *)
Lemma FromReader_overshoot_is_no_error :
  @FromReader limits48M 1 (newCommandReplyOp (headerFor 50))
    (cursorDoc ++ emptyDoc ++ xDoc)
  = Some (None, replyOf (headerFor 50) cursorDoc emptyDoc [xDoc], []).
Proof. vm_compute. reflexivity. Qed.

Lemma sample_frames_well_formed :
  Forall (@well_formed limits48M) [cursorDoc; emptyDoc; xDoc; boomDoc; corruptDoc].
Proof.
  repeat constructor; evaluate.
Qed.

Lemma FromReader_exact_frames_witness :
  Forall (@well_formed limits48M) [cursorDoc; emptyDoc; xDoc]
  /\ exists op',
    @FromReader limits48M 1 (newCommandReplyOp (headerFor 55))
      (List.concat [cursorDoc; emptyDoc; xDoc] ++ [])
    = Some (None, op', [])
    /\ CommandReply op' = Some (bson.document cursorDoc)
    /\ Metadata op' = Some (bson.document emptyDoc)
    /\ OutputDocs op' = map bson.document [xDoc]
    /\ Go.len (List.concat [cursorDoc; emptyDoc; xDoc] ++ []) - Go.len (@nil byte)
       = Go.int_sub (Go.int_of_int32 (MessageLength (Header (newCommandReplyOp (headerFor 55)))))
           MsgHeaderLen.
Proof.
  assert (Hwf : Forall (@well_formed limits48M) [cursorDoc; emptyDoc; xDoc]).
  { pose proof sample_frames_well_formed as H.
    rewrite !Forall_cons_iff in H. rewrite !Forall_cons_iff. tauto. }
  split; [exact Hwf|].
  apply (@FromReader_exact_frames limits48M (newCommandReplyOp (headerFor 55))
           cursorDoc emptyDoc [xDoc] [] 1%nat).
  - exact Hwf.
  - evaluate.
  - evaluate.
  - apply le_n.
Defined.

Lemma FromReader_overshoot_witness :
  totalLen [cursorDoc; emptyDoc] < target (headerFor 50) < totalLen [cursorDoc; emptyDoc; xDoc]
  /\ exists op',
    @FromReader limits48M 1 (newCommandReplyOp (headerFor 50))
      (List.concat (cursorDoc :: emptyDoc :: [] ++ [xDoc]) ++ [])
    = Some (None, op', [])
    /\ OutputDocs op' = map bson.document [] ++ [bson.document xDoc]
    /\ target (Header (newCommandReplyOp (headerFor 50)))
       < Go.len (List.concat (cursorDoc :: emptyDoc :: [] ++ [xDoc]) ++ []) - Go.len (@nil byte).
Proof.
  split; [evaluate|].
  apply (@FromReader_overshoot limits48M (newCommandReplyOp (headerFor 50))
           cursorDoc emptyDoc [] xDoc [] 1%nat).
  - pose proof sample_frames_well_formed as H.
    rewrite !Forall_cons_iff in H. cbn [app]. rewrite !Forall_cons_iff. tauto.
  - evaluate.
  - apply le_n.
Defined.

(** ** What decoding leaves alone *)

Lemma untouched_refl (op : CommandReplyOp) : untouched op op.
Proof. repeat split. Qed.

Lemma untouched_trans (op1 op2 op3 : CommandReplyOp) :
  untouched op1 op2 -> untouched op2 op3 -> untouched op1 op3.
Proof.
  unfold untouched. intros (H1 & H2 & H3 & H4 & H5) (G1 & G2 & G3 & G4 & G5).
  repeat split; congruence.
Qed.

Section Frame.

Context {limits : FrameLimits}.

Lemma FromReader_loop_untouched (fuel : nat) :
  forall lengthRead docLen op r res op' r',
    FromReader_loop fuel lengthRead docLen op r = Some (res, op', r') ->
    untouched op op'.
Proof.
  induction fuel as [|fuel IH]; intros lengthRead docLen op r res op' r' Hrun;
    rewrite FromReader_loop_eq in Hrun;
    destruct (Go.int_add lengthRead docLen <? target (Header op)).
  - discriminate Hrun.
  - injection Hrun as _ <- _. apply untouched_refl.
  - cbn [bson_Unmarshal] in Hrun. apply IH in Hrun.
    eapply untouched_trans; [|exact Hrun]. repeat split.
  - injection Hrun as _ <- _. apply untouched_refl.
Qed.

(** [FromReader] assigns [CommandReply], [Metadata] and [OutputDocs] and
    nothing else, whether it returns an error or not. *)
Lemma FromReader_untouched (fuel : nat) (op : CommandReplyOp) (r : Reader)
    (res : option error) (op' : CommandReplyOp) (r' : Reader) :
  FromReader fuel op r = Some (res, op', r') -> untouched op op'.
Proof.
  unfold FromReader. intros Hrun.
  destruct (ReadDocument r) as [[s1 [e1|]] r1].
  - injection Hrun as _ <- _. apply untouched_refl.
  - cbn [bson_Unmarshal] in Hrun.
    destruct (ReadDocument r1) as [[s2 [e2|]] r2].
    + injection Hrun as _ <- _. repeat split.
    + cbn [bson_Unmarshal] in Hrun. apply FromReader_loop_untouched in Hrun.
      eapply untouched_trans; [|exact Hrun]. repeat split.
Qed.

(** C4, as the code has it.  [getNumReturned] counts the entries of
    [Docs], a field that [FromReader] never assigns: after a decode it
    returns what it returned before, whatever number of output documents
    was decoded, and 0 on a record that was new when it was decoded.  It
    is a total function of the record. *)
Theorem getNumReturned_after_decode (fuel : nat) (op : CommandReplyOp) (r : Reader)
    (res : option error) (op' : CommandReplyOp) (r' : Reader) :
  FromReader fuel op r = Some (res, op', r') ->
  getNumReturned op' = Go.len (Docs op)
  /\ (Docs op = [] -> getNumReturned op' = 0).
Proof.
  intros Hrun. apply FromReader_untouched in Hrun.
  destruct Hrun as (_ & HDocs & _). unfold getNumReturned. rewrite HDocs.
  split; [reflexivity|]. intros ->. reflexivity.
Qed.

End Frame.

Lemma getNumReturned_after_decode_witness :
  @FromReader limits48M 1 (newCommandReplyOp (headerFor 55)) (cursorDoc ++ emptyDoc ++ xDoc)
  = Some (None, replyOf (headerFor 55) cursorDoc emptyDoc [xDoc], [])
  /\ getNumReturned (replyOf (headerFor 55) cursorDoc emptyDoc [xDoc])
  = Go.len (Docs (newCommandReplyOp (headerFor 55)))
  /\ (Docs (newCommandReplyOp (headerFor 55)) = [] ->
      getNumReturned (replyOf (headerFor 55) cursorDoc emptyDoc [xDoc]) = 0).
Proof.
  split; [vm_compute; reflexivity|].
  apply (@getNumReturned_after_decode limits48M 1%nat (newCommandReplyOp (headerFor 55))
           (cursorDoc ++ emptyDoc ++ xDoc) None _ []).
  vm_compute. reflexivity.
Defined.

(** C4, the claim refuted.  The record decoded from the reply document, the
    empty metadata document and the one output document [{x: 1}] holds one
    output document, and [getNumReturned] returns 0 for it. *)
Lemma getNumReturned_is_not_output_count :
  @FromReader limits48M 1 (newCommandReplyOp (headerFor 55)) (cursorDoc ++ emptyDoc ++ xDoc)
  = Some (None, replyOf (headerFor 55) cursorDoc emptyDoc [xDoc], [])
  /\ Go.len (OutputDocs (replyOf (headerFor 55) cursorDoc emptyDoc [xDoc])) = 1
  /\ getNumReturned (replyOf (headerFor 55) cursorDoc emptyDoc [xDoc]) = 0.
Proof. evaluate. Qed.

(** ** Read failures inside the loop *)

(** The loop on an exhausted stream, short of its target: every read fails,
    every failure is overwritten by the nil error of [bson.Unmarshal], the
    byte count never moves, and the loop outlives any fuel. *)
Lemma FromReader_loop_exhausted (fuel : nat) :
  forall (lengthRead : Z) (op : CommandReplyOp),
    0 <= lengthRead < target (Header op) ->
    lengthRead < 2 ^ 63 ->
    @FromReader_loop limits48M fuel lengthRead 0 op [] = None.
Proof.
  induction fuel as [|fuel IH]; intros lengthRead op Hlt Hsmall;
    rewrite FromReader_loop_eq; rewrite int_add_small by lia;
    rewrite Z.add_0_r;
    replace (lengthRead <? target (Header op)) with true
      by (symmetry; apply Z.ltb_lt; lia).
  - reflexivity.
  - cbn [ReadDocument fst snd bson_Unmarshal]. apply IH; [exact Hlt | exact Hsmall].
Qed.

(** C3, the code at a failing input.  The stream holds the reply document
    and the empty metadata document, 43 bytes, and ends there; the header
    declares 55 payload bytes.  The read of the third document fails with
    [TruncatedInputError], and [FromReader] returns neither that error nor
    anything else: the loop is still running when any amount of fuel is
    spent.  When the failure is a rejected length prefix in front of a good
    frame, [FromReader] returns nil, with an empty document recorded for the
    failed read. *)
Theorem FromReader_masks_read_error (fuel : nat) :
  @ReadDocument limits48M [] = ([], Some TruncatedInputError, [])
  /\ @FromReader limits48M fuel (newCommandReplyOp (headerFor 55)) (cursorDoc ++ emptyDoc)
     = None
  /\ @ReadDocument limits48M (putInt32 0 ++ xDoc) = ([], Some MalformedLengthError, xDoc)
  /\ @FromReader limits48M 2 (newCommandReplyOp (headerFor 55))
       (cursorDoc ++ emptyDoc ++ putInt32 0 ++ xDoc)
     = Some (None,
             set_OutputDocs (replyOf (headerFor 55) cursorDoc emptyDoc [])
               [bson.document []; bson.document xDoc],
             []).
Proof.
  split; [reflexivity|]. split; [|split; vm_compute; reflexivity].
  unfold FromReader.
  rewrite (ReadDocument_well_formed cursorDoc emptyDoc)
    by (pose proof sample_frames_well_formed as H; rewrite !Forall_cons_iff in H; tauto).
  cbn [bson_Unmarshal].
  rewrite <- (app_nil_r emptyDoc) at 1.
  rewrite (ReadDocument_well_formed emptyDoc [])
    by (pose proof sample_frames_well_formed as H; rewrite !Forall_cons_iff in H; tauto).
  cbn [bson_Unmarshal].
  apply FromReader_loop_exhausted; evaluate.
Qed.

(** ** The cursor id and its memo *)

Section CursorId.

Context {dec : BsonDecoder}.

(** The four ways a call of [getCursorId] goes. *)
Lemma getCursorId_cached (s : callState) :
  cursorCached (this s) = true ->
  getCursorId s = (Go.Returned (cursorId (this s), None), s).
Proof. intros H. unfold getCursorId, bind, load. rewrite H. reflexivity. Qed.

Lemma getCursorId_nil (s : callState) :
  cursorCached (this s) = false -> CommandReply (this s) = None ->
  exists msg, getCursorId s = (Go.Panicked msg, s).
Proof.
  intros Hc Hnil. unfold getCursorId, bind, load. rewrite Hc, Hnil.
  eexists. reflexivity.
Qed.

Lemma getCursorId_parsed (s : callState) (raw : bson.Raw) (id : Z) :
  cursorCached (this s) = false -> CommandReply (this s) = Some raw ->
  Raw_Unmarshal_cursor raw = Ok id ->
  getCursorId s = (Go.Returned (id, None), memoized s id).
Proof.
  intros Hc Hraw Hok. unfold getCursorId, bind, load, unmarshalCursor.
  rewrite Hc, Hraw. cbn [assertRaw ret]. rewrite Hok. reflexivity.
Qed.

Lemma getCursorId_failed (s : callState) (raw : bson.Raw) (e : error) :
  cursorCached (this s) = false -> CommandReply (this s) = Some raw ->
  Raw_Unmarshal_cursor raw = Failed e ->
  getCursorId s = (Go.Returned (0, Some (unmarshalFailure e)), counted s).
Proof.
  intros Hc Hraw Hfail. unfold getCursorId, bind, load, unmarshalCursor.
  rewrite Hc, Hraw. cbn [assertRaw ret]. rewrite Hfail. reflexivity.
Qed.

(** Every call is one of the four. *)
Lemma getCursorId_cases (s : callState) :
  (cursorCached (this s) = true
   /\ getCursorId s = (Go.Returned (cursorId (this s), None), s))
  \/ (cursorCached (this s) = false /\ CommandReply (this s) = None
      /\ exists msg, getCursorId s = (Go.Panicked msg, s))
  \/ (cursorCached (this s) = false
      /\ exists raw id, CommandReply (this s) = Some raw
         /\ Raw_Unmarshal_cursor raw = Ok id
         /\ getCursorId s = (Go.Returned (id, None), memoized s id))
  \/ (cursorCached (this s) = false
      /\ exists raw e, CommandReply (this s) = Some raw
         /\ Raw_Unmarshal_cursor raw = Failed e
         /\ getCursorId s = (Go.Returned (0, Some (unmarshalFailure e)), counted s)).
Proof.
  destruct (cursorCached (this s)) eqn:Hc.
  - left. split; [reflexivity|]. apply getCursorId_cached, Hc.
  - right. destruct (CommandReply (this s)) as [raw|] eqn:Hraw.
    + right. destruct (Raw_Unmarshal_cursor raw) as [id|e] eqn:Hdec.
      * left. split; [reflexivity|]. exists raw, id.
        repeat split; try assumption. now apply (getCursorId_parsed s raw id).
      * right. split; [reflexivity|]. exists raw, e.
        repeat split; try assumption. now apply (getCursorId_failed s raw e).
    + left. repeat split. now apply getCursorId_nil.
Qed.

(** Once the flag is set, calls change nothing and all return the cached
    id. *)
Lemma getCursorId_times_cached (n : nat) (s : callState) :
  cursorCached (this s) = true ->
  getCursorId_times n s = (repeat (Go.Returned (cursorId (this s), None)) n, s).
Proof.
  intros Hc. induction n as [|n IH]; [reflexivity|].
  cbn [getCursorId_times repeat]. rewrite getCursorId_cached by exact Hc.
  rewrite IH. reflexivity.
Qed.

(** C6, as the code has it.  Two calls of [getCursorId] in a row return
    the same thing.  When the first call returns an id without error, the
    two calls together have parsed the reply document at most once, and any
    number of later calls parses nothing more and returns that id: the memo
    is never invalidated.  When the first call fails to unmarshal the reply
    document, nothing is memoized and the second call parses it again: two
    parses for two calls. *)
Theorem getCursorId_twice (s : callState) :
  let first := getCursorId s in
  let second := getCursorId (snd first) in
  fst second = fst first
  /\ (forall id, fst first = Go.Returned (id, None) ->
       (unmarshalCalls (snd second) <= unmarshalCalls s + 1)%nat
       /\ forall n,
           getCursorId_times n (snd first)
           = (repeat (Go.Returned (id, None)) n, snd first))
  /\ (forall v e, fst first = Go.Returned (v, Some e) ->
       unmarshalCalls (snd second) = (unmarshalCalls s + 2)%nat).
Proof.
  cbv zeta.
  destruct (getCursorId_cases s)
    as [[Hc Hrun] | [(Hc & Hnil & msg & Hrun)
       | [(Hc & raw & id & Hraw & Hdec & Hrun) | (Hc & raw & e & Hraw & Hdec & Hrun)]]];
    rewrite Hrun; cbn [fst snd].
  - rewrite Hrun. cbn [fst snd]. split; [reflexivity|]. split.
    + intros id [= <-]. split; [lia|]. intros n.
      apply getCursorId_times_cached, Hc.
    + intros v e [=].
  - rewrite Hrun. cbn [fst snd]. split; [reflexivity|]. split.
    + intros id [=].
    + intros v e [=].
  - assert (Hc' : cursorCached (this (memoized s id)) = true) by reflexivity.
    rewrite (getCursorId_cached _ Hc'). cbn [fst snd]. split; [reflexivity|]. split.
    + intros id' [= <-]. split; [cbn; lia|]. intros n.
      apply (getCursorId_times_cached n _ Hc').
    + intros v e' [=].
  - rewrite (getCursorId_failed (counted s) raw e Hc Hraw Hdec). cbn [fst snd].
    split; [reflexivity|]. split.
    + intros id [=].
    + intros v e' _. cbn. lia.
Qed.

(** C10.  A call of [getCursorId] that fails to unmarshal the reply
    document leaves the record as it was, flag and cached id included, so
    the next call runs the parse again and reports the same failure instead
    of a cached value.  The flag is only ever set by a call whose parse
    succeeded, together with the id that parse produced. *)
Theorem getCursorId_failure_keeps_memo (s : callState) (v : Z) (e : error) :
  fst (getCursorId s) = Go.Returned (v, Some e) ->
  this (snd (getCursorId s)) = this s
  /\ cursorCached (this (snd (getCursorId s))) = false
  /\ cursorId (this (snd (getCursorId s))) = cursorId (this s)
  /\ unmarshalCalls (snd (getCursorId (snd (getCursorId s))))
     = S (unmarshalCalls (snd (getCursorId s)))
  /\ fst (getCursorId (snd (getCursorId s))) = Go.Returned (v, Some e)
  /\ (forall s0 : callState,
        cursorCached (this s0) = false ->
        cursorCached (this (snd (getCursorId s0))) = true ->
        exists raw id,
          CommandReply (this s0) = Some raw
          /\ Raw_Unmarshal_cursor raw = Ok id
          /\ fst (getCursorId s0) = Go.Returned (id, None)
          /\ cursorId (this (snd (getCursorId s0))) = id).
Proof.
  intros Hfail.
  assert (Honly : forall s0 : callState,
        cursorCached (this s0) = false ->
        cursorCached (this (snd (getCursorId s0))) = true ->
        exists raw id,
          CommandReply (this s0) = Some raw
          /\ Raw_Unmarshal_cursor raw = Ok id
          /\ fst (getCursorId s0) = Go.Returned (id, None)
          /\ cursorId (this (snd (getCursorId s0))) = id).
  { intros s0 Hc0 Hset.
    destruct (getCursorId_cases s0)
      as [[Hc Hrun] | [(Hc & Hnil & msg & Hrun)
         | [(Hc & raw & id & Hraw & Hdec & Hrun) | (Hc & raw & e0 & Hraw & Hdec & Hrun)]]];
      rewrite Hrun in Hset |- *; cbn [fst snd this counted] in Hset |- *;
      try congruence.
    exists raw, id. repeat split; assumption. }
  destruct (getCursorId_cases s)
    as [[Hc Hrun] | [(Hc & Hnil & msg & Hrun)
       | [(Hc & raw & id & Hraw & Hdec & Hrun) | (Hc & raw & e0 & Hraw & Hdec & Hrun)]]];
    rewrite Hrun in Hfail |- *; cbn [fst snd] in Hfail |- *; try discriminate Hfail.
  rewrite (getCursorId_failed (counted s) raw e0 Hc Hraw Hdec). cbn [fst snd this counted].
  split; [reflexivity|]. split; [exact Hc|]. split; [reflexivity|].
  split; [reflexivity|]. split; [exact Hfail | exact Honly].
Qed.

End CursorId.

Lemma getCursorId_failure_keeps_memo_witness :
  fst (@getCursorId fragmentDecoder (fresh corruptReply))
  = Go.Returned (0, Some (unmarshalFailure (LibraryError "Document is corrupted")))
  /\ this (snd (@getCursorId fragmentDecoder (fresh corruptReply))) = corruptReply
  /\ unmarshalCalls
       (snd (@getCursorId fragmentDecoder (snd (@getCursorId fragmentDecoder (fresh corruptReply)))))
     = S (unmarshalCalls (snd (@getCursorId fragmentDecoder (fresh corruptReply)))).
Proof.
  assert (Hfail : fst (@getCursorId fragmentDecoder (fresh corruptReply))
    = Go.Returned (0, Some (unmarshalFailure (LibraryError "Document is corrupted"))))
    by (vm_compute; reflexivity).
  split; [exact Hfail|].
  destruct (@getCursorId_failure_keeps_memo fragmentDecoder (fresh corruptReply) 0
              (unmarshalFailure (LibraryError "Document is corrupted")) Hfail)
    as (Hthis & _ & _ & Hcalls & _).
  split; [exact Hthis | exact Hcalls].
Defined.

(** C6, the claim refuted.  The stream holds a 5-byte frame that is not a
    document, then the empty metadata document; the header declares their 10
    bytes.  [FromReader] decodes it without error, and two calls of
    [getCursorId] on the record parse the reply document twice. *)
Lemma getCursorId_parses_twice :
  @FromReader limits48M 0 (newCommandReplyOp (headerFor 10)) (corruptDoc ++ emptyDoc)
  = Some (None, corruptReply, [])
  /\ ~ (unmarshalCalls (snd (@getCursorId_times fragmentDecoder 2 (fresh corruptReply))) <= 1)%nat.
Proof.
  split; [vm_compute; reflexivity|].
  assert (H : unmarshalCalls (snd (@getCursorId_times fragmentDecoder 2 (fresh corruptReply)))
              = 2%nat) by (vm_compute; reflexivity).
  rewrite H. lia.
Qed.

(** ** Errors of a reply *)

Section Errors.

Context {dec : BsonDecoder} {conv : ErrorConvention dec} {limits : FrameLimits}.

(** [getErrors] looks at [Docs] and at nothing else. *)
Lemma getErrors_Docs (op op' : CommandReplyOp) :
  Docs op' = Docs op -> getErrors op' = getErrors op.
Proof. intros H. unfold getErrors. rewrite H. reflexivity. Qed.

Lemma getErrors_no_Docs (op : CommandReplyOp) :
  Docs op = [] -> getErrors op = Go.Returned [].
Proof. intros H. unfold getErrors. rewrite H. reflexivity. Qed.

(** C5, as the code has it.  [getErrors] reads [Docs], a field that
    [FromReader] never assigns, and not the output documents: after a
    decode it returns what it returned before.  On a record whose [Docs]
    start with a document that the library parses, it returns what
    [extractErrorsFromDoc] finds in that document; on a record whose
    [Docs] are empty, a new record that was decoded included, it returns
    no errors whatever the output documents hold. *)
Theorem getErrors_reads_Docs (fuel : nat) (op : CommandReplyOp) (r : Reader)
    (res : option error) (op' : CommandReplyOp) (r' : Reader) :
  FromReader fuel op r = Some (res, op', r') ->
  getErrors op' = getErrors op
  /\ (forall doc0 more firstDoc,
        Docs op = doc0 :: more -> Raw_Unmarshal_D doc0 = Ok firstDoc ->
        getErrors op' = Go.Returned (extractErrorsFromDoc firstDoc))
  /\ (Docs op = [] -> getErrors op' = Go.Returned []).
Proof.
  intros Hrun. apply FromReader_untouched in Hrun. destruct Hrun as (_ & HDocs & _).
  split; [apply getErrors_Docs, HDocs|]. split.
  - intros doc0 more firstDoc Hop Hparse. unfold getErrors.
    rewrite HDocs, Hop, Hparse. reflexivity.
  - intros Hnil. apply getErrors_no_Docs. congruence.
Qed.

(** C7.  A record that was new when [FromReader] decoded it, with no
    output documents decoded, has no [Docs] either: [getErrors] returns the
    empty list for it, without a panic. *)
Theorem getErrors_no_output_documents (fuel : nat) (h : MsgHeader) (r : Reader)
    (op' : CommandReplyOp) (r' : Reader) :
  FromReader fuel (newCommandReplyOp h) r = Some (None, op', r') ->
  OutputDocs op' = [] ->
  getErrors op' = Go.Returned [].
Proof.
  intros Hrun _. apply FromReader_untouched in Hrun. destruct Hrun as (_ & HDocs & _).
  apply getErrors_no_Docs. exact HDocs.
Qed.

End Errors.

Lemma getErrors_reads_Docs_witness :
  @FromReader limits48M 1 (withDocs (newCommandReplyOp (headerFor 55)) [bson.document boomDoc])
    (cursorDoc ++ emptyDoc ++ xDoc)
  = Some (None,
          withDocs (replyOf (headerFor 55) cursorDoc emptyDoc [xDoc]) [bson.document boomDoc],
          [])
  /\ @getErrors fragmentDecoder fragmentConvention
       (withDocs (replyOf (headerFor 55) cursorDoc emptyDoc [xDoc]) [bson.document boomDoc])
     = Go.Returned [ReplyError "boom" (Some 17)].
Proof.
  assert (Hrun :
    @FromReader limits48M 1 (withDocs (newCommandReplyOp (headerFor 55)) [bson.document boomDoc])
      (cursorDoc ++ emptyDoc ++ xDoc)
    = Some (None,
            withDocs (replyOf (headerFor 55) cursorDoc emptyDoc [xDoc]) [bson.document boomDoc],
            [])) by (vm_compute; reflexivity).
  split; [exact Hrun|].
  destruct (@getErrors_reads_Docs fragmentDecoder fragmentConvention limits48M _ _ _ _ _ _ Hrun)
    as (_ & Hfirst & _).
  apply (Hfirst (bson.document boomDoc) []
           [("$err"%string, Fragment.Str "boom"); ("code"%string, Fragment.Int32 17)]);
    vm_compute; reflexivity.
Defined.

(** C5, the claim refuted.  The record decoded from a payload whose one
    output document is [{$err: "boom", code: 17}] holds that document in
    [OutputDocs], and [getErrors] returns no error for it. *)
Lemma getErrors_ignores_output_documents :
  @FromReader limits48M 1 (newCommandReplyOp (headerFor 73)) (cursorDoc ++ emptyDoc ++ boomDoc)
  = Some (None, boomReply, [])
  /\ OutputDocs boomReply = [bson.document boomDoc]
  /\ @getErrors fragmentDecoder fragmentConvention boomReply = Go.Returned []
  /\ @getErrors fragmentDecoder fragmentConvention boomReply
     <> Go.Returned [ReplyError "boom" (Some 17)].
Proof.
  split; [vm_compute; reflexivity|]. split; [reflexivity|]. split; [reflexivity|].
  intros H. discriminate H.
Qed.

Lemma getErrors_no_output_documents_witness :
  @FromReader limits48M 0 (newCommandReplyOp (headerFor 43)) (cursorDoc ++ emptyDoc)
  = Some (None, replyOf (headerFor 43) cursorDoc emptyDoc [], [])
  /\ @getErrors fragmentDecoder fragmentConvention (replyOf (headerFor 43) cursorDoc emptyDoc [])
     = Go.Returned [].
Proof.
  assert (Hrun :
    @FromReader limits48M 0 (newCommandReplyOp (headerFor 43)) (cursorDoc ++ emptyDoc)
    = Some (None, replyOf (headerFor 43) cursorDoc emptyDoc [], []))
    by (vm_compute; reflexivity).
  split; [exact Hrun|].
  exact (@getErrors_no_output_documents fragmentDecoder fragmentConvention limits48M
           0%nat (headerFor 43) (cursorDoc ++ emptyDoc) _ [] Hrun eq_refl).
Defined.

(** ** Latency *)

(** C8.  For a latency that is an [int64] count of nanoseconds,
    [getLatencyMicros] is that count divided by the 1000 nanoseconds of a
    microsecond, truncated toward zero: it is within one microsecond of the
    latency, on the side of zero, it is exact on a whole number of
    microseconds, and it is an [int64] again.  The function is total and
    reads no other field. *)
Theorem getLatencyMicros_unit_conversion (op : CommandReplyOp) :
  - 2 ^ 63 <= Latency op < 2 ^ 63 ->
  getLatencyMicros op = Latency op ÷ Go.Microsecond
  /\ (0 <= Latency op ->
      Go.Microsecond * getLatencyMicros op <= Latency op
        < Go.Microsecond * getLatencyMicros op + Go.Microsecond)
  /\ (Latency op <= 0 ->
      Go.Microsecond * getLatencyMicros op - Go.Microsecond < Latency op
        <= Go.Microsecond * getLatencyMicros op)
  /\ (forall n, Latency op = n * Go.Microsecond -> getLatencyMicros op = n)
  /\ - 2 ^ 63 <= getLatencyMicros op < 2 ^ 63.
Proof.
  intros Hrange. unfold Go.Microsecond.
  pose proof (Z.quot_rem' (Latency op) 1000) as Hqr.
  assert (Hq : getLatencyMicros op = Latency op ÷ 1000).
  { unfold getLatencyMicros, Go.int64_of_Duration, Go.int64_quo, Go.Microsecond.
    assert (Hsmall : - 2 ^ 63 <= Latency op ÷ 1000 < 2 ^ 63).
    { destruct (Z.le_gt_cases 0 (Latency op)) as [Hpos | Hneg].
      - pose proof (Z.rem_bound_pos (Latency op) 1000 Hpos ltac:(lia)). lia.
      - pose proof (Z.rem_bound_pos_neg (Latency op) 1000 ltac:(lia) ltac:(lia)). lia. }
    rewrite (wrap_small 64 (Latency op ÷ 1000)) by (simpl; lia).
    apply wrap_small; simpl; lia. }
  rewrite Hq. split; [reflexivity|]. split; [|split; [|split]].
  - intros Hpos. pose proof (Z.rem_bound_pos (Latency op) 1000 Hpos ltac:(lia)). lia.
  - intros Hneg.
    destruct (Z.eq_dec (Latency op) 0) as [H0 | Hne].
    + rewrite H0. cbn. lia.
    + pose proof (Z.rem_bound_pos_neg (Latency op) 1000 ltac:(lia) ltac:(lia)). lia.
  - intros n Hn. rewrite Hn. apply Z.quot_mul. lia.
  - destruct (Z.le_gt_cases 0 (Latency op)) as [Hpos | Hneg].
    + pose proof (Z.rem_bound_pos (Latency op) 1000 Hpos ltac:(lia)). lia.
    + pose proof (Z.rem_bound_pos_neg (Latency op) 1000 ltac:(lia) ltac:(lia)). lia.
Qed.

Lemma getLatencyMicros_unit_conversion_witness :
  - 2 ^ 63 <= Latency (withLatency corruptReply 2500) < 2 ^ 63
  /\ getLatencyMicros (withLatency corruptReply 2500) = 2
  /\ getLatencyMicros (withLatency corruptReply (-2500)) = -2.
Proof.
  assert (Hpos : - 2 ^ 63 <= Latency (withLatency corruptReply 2500) < 2 ^ 63) by evaluate.
  assert (Hneg : - 2 ^ 63 <= Latency (withLatency corruptReply (-2500)) < 2 ^ 63) by evaluate.
  split; [exact Hpos|]. split.
  - exact (proj1 (getLatencyMicros_unit_conversion (withLatency corruptReply 2500) Hpos)).
  - exact (proj1 (getLatencyMicros_unit_conversion (withLatency corruptReply (-2500)) Hneg)).
Defined.

(** ** Rendering *)

Lemma string_app_nil_r (a : string) : (a ++ "" = a)%string.
Proof. induction a as [|ch a IH]; cbn; [reflexivity | rewrite IH; reflexivity]. Qed.

Section RenderFacts.

Context {rnd : Rendering}.

Local Open Scope string_scope.

(** C9, the code at its inputs.  When the three renderings succeed,
    [Abbreviated] prints the abbreviated reply and metadata behind the
    word CommandReply; its format has two verbs for three operands, so the
    abbreviated output documents come out inside the [EXTRA] note that
    [fmt] appends for an operand without a verb, glued to the metadata.
    [String], on the same record, prints the three segments separated by
    spaces.  When a rendering fails, both return the text of the error. *)
Theorem Abbreviated_extra_operand (op : CommandReplyOp) (chars : Z) :
  Abbreviated op chars =
    match getOpBodyString op with
    | (commandReply, metadata, outputDocs, None) =>
        "CommandReply " ++ Abbreviate commandReply chars ++ " "
          ++ Abbreviate metadata chars
          ++ "%!(EXTRA string=" ++ Abbreviate outputDocs chars ++ ")"
    | (_, _, _, Some err) => Error_text err
    end
  /\ String' op =
    match getOpBodyString op with
    | (commandReply, metadata, outputDocs, None) =>
        "CommandReply " ++ commandReply ++ " " ++ metadata ++ " " ++ outputDocs
    | (_, _, _, Some err) => Error_text err
    end.
Proof.
  unfold Abbreviated, String'.
  destruct (getOpBodyString op) as [[[commandReply metadata] outputDocs] [err|]].
  - cbn. rewrite string_app_nil_r. split; reflexivity.
  - cbn. split; [reflexivity|]. rewrite string_app_nil_r. reflexivity.
Qed.

End RenderFacts.

(** ** The example of the specification

    The payload is the reply document [{ok: 1, cursor: {id: 42}}], the empty
    metadata document and the output document [{x: 1}].  The record decodes;
    the first call of [getCursorId] parses the reply document and returns 42,
    the second returns 42 from the memo; [getNumReturned] is 0 and
    [getErrors] is empty, since neither reads the output documents. *)
Lemma decode_example :
  @FromReader limits48M 1 (newCommandReplyOp (headerFor 55)) (cursorDoc ++ emptyDoc ++ xDoc)
  = Some (None, replyOf (headerFor 55) cursorDoc emptyDoc [xDoc], [])
  /\ fst (@getCursorId_times fragmentDecoder 2
            (fresh (replyOf (headerFor 55) cursorDoc emptyDoc [xDoc])))
     = [Go.Returned (42, None); Go.Returned (42, None)]
  /\ unmarshalCalls
       (snd (@getCursorId_times fragmentDecoder 2
               (fresh (replyOf (headerFor 55) cursorDoc emptyDoc [xDoc]))))
     = 1%nat
  /\ getNumReturned (replyOf (headerFor 55) cursorDoc emptyDoc [xDoc]) = 0
  /\ @getErrors fragmentDecoder fragmentConvention
       (replyOf (headerFor 55) cursorDoc emptyDoc [xDoc])
     = Go.Returned [].
Proof. repeat split; vm_compute; reflexivity. Qed.

(** ** The leading reads and the errors of a decode *)

Section DecodeErrors.

Context {limits : FrameLimits}.

(** [FromReader] in terms of what the frame reader returns. *)
Lemma FromReader_eq (fuel : nat) (op : CommandReplyOp) (r : Reader) :
  FromReader fuel op r =
  match readError r with
  | Some e => Some (Some e, op, readRest r)
  | None =>
      match readError (readRest r) with
      | Some e =>
          Some (Some e, set_CommandReply op (Some (bson.document (readSlice r))),
                readRest (readRest r))
      | None =>
          FromReader_loop fuel
            (Go.int_add (Go.len (readSlice r)) (Go.len (readSlice (readRest r)))) 0
            (set_OutputDocs
               (set_Metadata (set_CommandReply op (Some (bson.document (readSlice r))))
                  (Some (bson.document (readSlice (readRest r)))))
               [])
            (readRest (readRest r))
      end
  end.
Proof.
  unfold FromReader, readError, readRest, readSlice.
  destruct (ReadDocument r) as [[a [e|]] r1]; cbn [fst snd]; [reflexivity|].
  cbn [bson_Unmarshal].
  destruct (ReadDocument r1) as [[m [e|]] r2]; cbn [fst snd]; reflexivity.
Qed.

(** The loop never returns an error. *)
Lemma FromReader_loop_no_error (fuel : nat) :
  forall lengthRead docLen op r res op' r',
    FromReader_loop fuel lengthRead docLen op r = Some (res, op', r') -> res = None.
Proof.
  induction fuel as [|fuel IH]; intros lengthRead docLen op r res op' r' Hrun;
    rewrite FromReader_loop_eq in Hrun;
    destruct (Go.int_add lengthRead docLen <? target (Header op)).
  - discriminate Hrun.
  - now injection Hrun as <- _ _.
  - cbn [bson_Unmarshal] in Hrun. eapply IH, Hrun.
  - now injection Hrun as <- _ _.
Qed.

(** X1.  A failure of one of the two leading reads is what [FromReader] returns,
    whatever the fuel and the header.  When the read of the reply document
    fails the record is returned as it was.  When the read of the metadata
    document fails the reply document has already been assigned, and the
    metadata and the output documents are those the record held before. *)
Theorem FromReader_leading_failure (fuel : nat) (op : CommandReplyOp) (r : Reader) (e : error) :
  (readError r = Some e \/ (readError r = None /\ readError (readRest r) = Some e)) ->
  exists op' r',
    FromReader fuel op r = Some (Some e, op', r')
    /\ Metadata op' = Metadata op
    /\ OutputDocs op' = OutputDocs op
    /\ untouched op op'
    /\ (readError r = Some e -> op' = op /\ r' = readRest r)
    /\ (readError r = None ->
        CommandReply op' = Some (bson.document (readSlice r))
        /\ r' = readRest (readRest r)).
Proof.
  intros [H1 | [H1 H2]]; rewrite FromReader_eq, H1; [|rewrite H2].
  - exists op, (readRest r).
    split; [reflexivity|]. split; [reflexivity|]. split; [reflexivity|].
    split; [apply untouched_refl|]. split.
    + intros _. split; reflexivity.
    + intros Hnone. discriminate Hnone.
  - eexists _, _.
    split; [reflexivity|]. split; [reflexivity|]. split; [reflexivity|].
    split; [repeat split|]. split.
    + intros Hsome. discriminate Hsome.
    + intros _. split; reflexivity.
Qed.

(** X2.  An error that [FromReader] returns is the error of the read of the
    reply document, or, that read having succeeded, the error of the read of
    the metadata document: no read of a trailing document and no call of
    [bson.Unmarshal] ever makes [FromReader] return an error. *)
Theorem FromReader_error_origin (fuel : nat) (op : CommandReplyOp) (r : Reader)
    (e : error) (op' : CommandReplyOp) (r' : Reader) :
  FromReader fuel op r = Some (Some e, op', r') ->
  OutputDocs op' = OutputDocs op
  /\ (readError r = Some e
      \/ (readError r = None /\ readError (readRest r) = Some e)).
Proof.
  rewrite FromReader_eq. intros Hrun.
  destruct (readError r) as [e1|].
  - injection Hrun as <- <- _. split; [reflexivity | left; reflexivity].
  - destruct (readError (readRest r)) as [e2|].
    + injection Hrun as <- <- _. split; [reflexivity | right; split; reflexivity].
    + apply FromReader_loop_no_error in Hrun. discriminate Hrun.
Qed.

End DecodeErrors.

Lemma FromReader_leading_failure_witness :
  @readError limits48M cursorDoc = None
  /\ @readError limits48M (@readRest limits48M cursorDoc) = Some TruncatedInputError
  /\ exists op' r',
      @FromReader limits48M 0 memoReply cursorDoc = Some (Some TruncatedInputError, op', r')
      /\ Metadata op' = Metadata memoReply
      /\ OutputDocs op' = OutputDocs memoReply.
Proof.
  assert (H1 : @readError limits48M cursorDoc = None) by (vm_compute; reflexivity).
  assert (H2 : @readError limits48M (@readRest limits48M cursorDoc) = Some TruncatedInputError)
    by (vm_compute; reflexivity).
  split; [exact H1|]. split; [exact H2|].
  destruct (@FromReader_leading_failure limits48M 0%nat memoReply cursorDoc
              TruncatedInputError (or_intror (conj H1 H2)))
    as (op' & r' & Hrun & Hmeta & Houts & _).
  exists op', r'. split; [exact Hrun|]. split; [exact Hmeta | exact Houts].
Defined.

Lemma FromReader_error_origin_witness :
  @FromReader limits48M 0 (newCommandReplyOp (headerFor 55)) (putInt32 0 ++ xDoc)
  = Some (Some MalformedLengthError, newCommandReplyOp (headerFor 55), xDoc)
  /\ (@readError limits48M (putInt32 0 ++ xDoc) = Some MalformedLengthError
      \/ (@readError limits48M (putInt32 0 ++ xDoc) = None
          /\ @readError limits48M (@readRest limits48M (putInt32 0 ++ xDoc))
             = Some MalformedLengthError)).
Proof.
  assert (Hrun :
    @FromReader limits48M 0 (newCommandReplyOp (headerFor 55)) (putInt32 0 ++ xDoc)
    = Some (Some MalformedLengthError, newCommandReplyOp (headerFor 55), xDoc))
    by (vm_compute; reflexivity).
  split; [exact Hrun|].
  exact (proj2 (@FromReader_error_origin limits48M 0%nat _ _ _ _ _ Hrun)).
Defined.

(** ** The byte count of the loop *)

Lemma target_lt (h : MsgHeader) : target h < 2 ^ 31.
Proof.
  unfold target. rewrite target_eq. unfold MsgHeaderLen, Go.int_of_int32.
  pose proof (wrap_range 32 (MessageLength h) ltac:(lia)) as H.
  change (32 - 1) with 31 in H. lia.
Qed.

Lemma dataLen_cons (doc : bson.Raw) (docs : list bson.Raw) :
  dataLen (doc :: docs) = Go.len (bson.Data doc) + dataLen docs.
Proof. unfold dataLen. cbn [map]. apply totalLen_cons. Qed.

Lemma dataLen_nonneg (docs : list bson.Raw) : 0 <= dataLen docs.
Proof. apply totalLen_nonneg. Qed.

Lemma dataLen_documents (ds : list (list byte)) :
  dataLen (map bson.document ds) = totalLen ds.
Proof.
  induction ds as [|d ds IH]; [reflexivity|].
  cbn [map]. rewrite dataLen_cons, totalLen_cons, IH. reflexivity.
Qed.

Lemma set_OutputDocs_self (op : CommandReplyOp) :
  set_OutputDocs op (OutputDocs op ++ []) = op.
Proof. rewrite app_nil_r. destruct op; reflexivity. Qed.

Section ByteCount.

Context {limits : FrameLimits}.

(** A slice that the frame reader returns has an [int32] length. *)
Lemma ReadDocument_len (r : Reader) : 0 <= Go.len (readSlice r) < 2 ^ 31.
Proof.
  unfold readSlice, ReadDocument.
  destruct r as [|b0 [|b1 [|b2 [|b3 tl]]]]; try (cbn; lia).
  set (size := getInt32 b0 b1 b2 b3). set (whole := b0 :: b1 :: b2 :: b3 :: tl).
  cbv zeta.
  destruct ((size <? 4) || (MaximumDocumentSize <? size)) eqn:Hbad; [cbn; lia|].
  destruct (Go.len whole <? size) eqn:Hshort; [cbn; lia|].
  cbn [fst]. apply orb_false_iff in Hbad. destruct Hbad as [H4 _].
  apply Z.ltb_ge in H4, Hshort. unfold Go.len in *.
  rewrite firstn_length_le by lia. rewrite Z2Nat.id by lia.
  subst size. unfold getInt32.
  match goal with |- _ <= Go.wrap 32 ?w < _ =>
    pose proof (wrap_range 32 w ltac:(lia)) as H end.
  change (32 - 1) with 31 in H.
  match type of H4 with 4 <= ?x => change x with (getInt32 b0 b1 b2 b3) in H4 end.
  unfold getInt32 in H4. lia.
Qed.

(** What a run of the loop amounts to.  It appends some documents [new] to
    the output documents and changes nothing else; the byte count reaches the
    target with them and not without the last of them; no addition wraps on
    the way; and a record under the same header gets the same documents
    appended. *)
Lemma FromReader_loop_shape (fuel : nat) :
  forall lengthRead docLen op r res op' r',
    0 <= lengthRead -> 0 <= docLen -> lengthRead + docLen < 2 ^ 32 ->
    FromReader_loop fuel lengthRead docLen op r = Some (res, op', r') ->
    exists new,
      op' = set_OutputDocs op (OutputDocs op ++ new)
      /\ target (Header op) <= lengthRead + docLen + dataLen new
      /\ (new <> [] -> lengthRead + docLen + dataLen (removelast new) < target (Header op))
      /\ (forall op2, Header op2 = Header op ->
            FromReader_loop fuel lengthRead docLen op2 r
            = Some (res, set_OutputDocs op2 (OutputDocs op2 ++ new), r')).
Proof.
  assert (Hstop : forall lengthRead docLen op r res op' r' fuel0,
    0 <= lengthRead -> 0 <= docLen -> lengthRead + docLen < 2 ^ 32 ->
    (Go.int_add lengthRead docLen <? target (Header op)) = false ->
    Some (None, op, r) = Some (res, op', r') ->
    exists new,
      op' = set_OutputDocs op (OutputDocs op ++ new)
      /\ target (Header op) <= lengthRead + docLen + dataLen new
      /\ (new <> [] -> lengthRead + docLen + dataLen (removelast new) < target (Header op))
      /\ (forall op2, Header op2 = Header op ->
            FromReader_loop fuel0 lengthRead docLen op2 r
            = Some (res, set_OutputDocs op2 (OutputDocs op2 ++ new), r'))).
  { intros lengthRead docLen op r res op' r' fuel0 Hlr Hdl Hsum Hguard Hrun.
    injection Hrun as <- <- <-. exists [].
    rewrite int_add_small in Hguard by lia. apply Z.ltb_ge in Hguard.
    split; [symmetry; apply set_OutputDocs_self|].
    split; [change (dataLen []) with 0; lia|].
    split; [intros Hne; now contradiction Hne|].
    intros op2 Hh. rewrite FromReader_loop_eq, Hh, int_add_small by lia.
    replace (lengthRead + docLen <? target (Header op)) with false
      by (symmetry; apply Z.ltb_ge; lia).
    rewrite set_OutputDocs_self. reflexivity. }
  induction fuel as [|fuel IH]; intros lengthRead docLen op r res op' r' Hlr Hdl Hsum Hrun;
    rewrite FromReader_loop_eq in Hrun;
    destruct (Go.int_add lengthRead docLen <? target (Header op)) eqn:Hguard;
    try discriminate Hrun; try (eapply Hstop; eassumption).
  cbn [bson_Unmarshal] in Hrun.
  rewrite int_add_small in Hguard by lia. apply Z.ltb_lt in Hguard.
  pose proof (ReadDocument_len r) as Hd. unfold readSlice in Hd.
  pose proof (target_lt (Header op)) as Ht.
  set (d := fst (fst (ReadDocument r))) in *.
  rewrite int_add_small in Hrun by lia.
  apply IH in Hrun; [|lia|lia|lia].
  destruct Hrun as (new & Hop' & Hreach & Hlast & Hother).
  cbn [Header OutputDocs set_OutputDocs] in Hop', Hreach, Hlast, Hother.
  exists (bson.document d :: new).
  split; [|split; [|split]].
  - rewrite Hop'. rewrite set_OutputDocs_twice, <- app_assoc. reflexivity.
  - rewrite dataLen_cons. cbn [bson.Data bson.document]. lia.
  - intros _. destruct new as [|doc new].
    + change (dataLen (removelast [bson.document d])) with 0. lia.
    + change (removelast (bson.document d :: doc :: new))
        with (bson.document d :: removelast (doc :: new)).
      rewrite dataLen_cons. cbn [bson.Data bson.document].
      assert (Hne : doc :: new <> []) by discriminate.
      specialize (Hlast Hne). lia.
  - intros op2 Hh. rewrite FromReader_loop_eq, Hh, int_add_small by lia.
    replace (lengthRead + docLen <? target (Header op)) with true
      by (symmetry; apply Z.ltb_lt; lia).
    cbn [bson_Unmarshal]. fold d. rewrite int_add_small by lia.
    rewrite (Hother (set_OutputDocs op2 (OutputDocs op2 ++ [bson.document d])) Hh).
    rewrite set_OutputDocs_twice. cbn [OutputDocs set_OutputDocs].
    rewrite <- app_assoc. reflexivity.
Qed.

(** A decode that returned nil, reduced to the run of its loop. *)
Lemma FromReader_nil_shape (fuel : nat) (op : CommandReplyOp) (r : Reader)
    (op' : CommandReplyOp) (r' : Reader) :
  FromReader fuel op r = Some (None, op', r') ->
  exists new,
    op' = set_OutputDocs
            (set_Metadata (set_CommandReply op (Some (bson.document (readSlice r))))
               (Some (bson.document (readSlice (readRest r)))))
            new
    /\ target (Header op)
       <= Go.len (readSlice r) + Go.len (readSlice (readRest r)) + dataLen new
    /\ (new <> [] ->
        Go.len (readSlice r) + Go.len (readSlice (readRest r)) + dataLen (removelast new)
        < target (Header op))
    /\ (forall op2, Header op2 = Header op ->
          FromReader fuel op2 r
          = Some (None,
                  set_OutputDocs
                    (set_Metadata (set_CommandReply op2 (Some (bson.document (readSlice r))))
                       (Some (bson.document (readSlice (readRest r)))))
                    new,
                  r')).
Proof.
  rewrite FromReader_eq. intros Hrun.
  destruct (readError r) as [e1|] eqn:H1; [discriminate Hrun|].
  destruct (readError (readRest r)) as [e2|] eqn:H2; [discriminate Hrun|].
  pose proof (ReadDocument_len r) as Ha.
  pose proof (ReadDocument_len (readRest r)) as Hm.
  rewrite int_add_small in Hrun by lia.
  apply FromReader_loop_shape in Hrun; [|lia|lia|lia].
  destruct Hrun as (new & Hop' & Hreach & Hlast & Hother).
  cbn [Header OutputDocs set_OutputDocs set_Metadata set_CommandReply app] in *.
  exists new. split; [exact Hop'|]. split; [lia|]. split.
  - intros Hne. specialize (Hlast Hne). lia.
  - intros op2 Hh. rewrite FromReader_eq, H1, H2, int_add_small by lia.
    rewrite (Hother
      (set_OutputDocs
         (set_Metadata (set_CommandReply op2 (Some (bson.document (readSlice r))))
            (Some (bson.document (readSlice (readRest r)))))
         []) Hh).
    reflexivity.
Qed.

End ByteCount.

Section DecodeShape.

Context {limits : FrameLimits}.

(** X3.  When [FromReader] returns nil, the bytes of the documents it stored
    reach the payload length that the header declares, and they do not reach
    it without the last output document: the loop stops at the first
    document with which the count reaches the target.  The count is kept in
    [int] additions none of which wraps, whatever the stream holds. *)
Theorem FromReader_byte_count (fuel : nat) (op : CommandReplyOp) (r : Reader)
    (op' : CommandReplyOp) (r' : Reader) :
  FromReader fuel op r = Some (None, op', r') ->
  target (Header op) <= decodedLen op'
  /\ (OutputDocs op' <> [] ->
      decodedLen (set_OutputDocs op' (removelast (OutputDocs op'))) < target (Header op))
  /\ (OutputDocs op' = [] <-> target (Header op) <= rawLen (CommandReply op') + rawLen (Metadata op')).
Proof.
  intros Hrun. apply FromReader_nil_shape in Hrun.
  destruct Hrun as (new & -> & Hreach & Hlast & _).
  unfold decodedLen.
  cbn [CommandReply Metadata OutputDocs set_OutputDocs set_Metadata set_CommandReply
       rawLen bson.Data bson.document].
  split; [exact Hreach|]. split; [exact Hlast|]. split.
  - intros ->. change (dataLen []) with 0 in Hreach. lia.
  - intros Hle. destruct new as [|doc new]; [reflexivity|].
    assert (Hne : doc :: new <> []) by discriminate.
    specialize (Hlast Hne). pose proof (dataLen_nonneg (removelast (doc :: new))). lia.
Qed.

(** X5.  Decoding into a record that is in use gives what decoding into a new
    record under the same header gives, with the [Docs], the latency and the
    cursor memo of the used record carried over: the reply, the metadata and
    the output documents that the record held before play no part, and
    [Meta] reports the same for both. *)
Theorem FromReader_into_used_record (fuel : nat) (op : CommandReplyOp) (r : Reader)
    (op' : CommandReplyOp) (r' : Reader) :
  FromReader fuel op r = Some (None, op', r') ->
  exists op0,
    FromReader fuel (newCommandReplyOp (Header op)) r = Some (None, op0, r')
    /\ op' = decodedInto op op0
    /\ Meta op' = Meta op0.
Proof.
  intros Hrun. apply FromReader_nil_shape in Hrun.
  destruct Hrun as (new & -> & _ & _ & Hother).
  eexists. split; [apply Hother; reflexivity|]. split; reflexivity.
Qed.



End DecodeShape.

Lemma FromReader_byte_count_witness :
  @FromReader limits48M 1 (newCommandReplyOp (headerFor 50)) (cursorDoc ++ emptyDoc ++ xDoc)
  = Some (None, replyOf (headerFor 50) cursorDoc emptyDoc [xDoc], [])
  /\ target (headerFor 50) <= decodedLen (replyOf (headerFor 50) cursorDoc emptyDoc [xDoc])
  /\ decodedLen (replyOf (headerFor 50) cursorDoc emptyDoc []) < target (headerFor 50).
Proof.
  assert (Hrun :
    @FromReader limits48M 1 (newCommandReplyOp (headerFor 50)) (cursorDoc ++ emptyDoc ++ xDoc)
    = Some (None, replyOf (headerFor 50) cursorDoc emptyDoc [xDoc], []))
    by (vm_compute; reflexivity).
  split; [exact Hrun|].
  destruct (@FromReader_byte_count limits48M _ _ _ _ _ Hrun) as (Hreach & Hlast & _).
  split; [exact Hreach|].
  apply Hlast. discriminate.
Defined.

Lemma FromReader_into_used_record_witness :
  exists op0,
    @FromReader limits48M 1 (newCommandReplyOp (Header memoReply)) (emptyDoc ++ cursorDoc ++ xDoc)
    = Some (None, op0, [])
    /\ decodedInto memoReply (replyOf (headerFor 55) emptyDoc cursorDoc [xDoc])
       = decodedInto memoReply op0
    /\ Meta (decodedInto memoReply (replyOf (headerFor 55) emptyDoc cursorDoc [xDoc])) = Meta op0.
Proof.
  apply (@FromReader_into_used_record limits48M 1%nat memoReply (emptyDoc ++ cursorDoc ++ xDoc)
           (decodedInto memoReply (replyOf (headerFor 55) emptyDoc cursorDoc [xDoc])) []).
  vm_compute. reflexivity.
Defined.


(** ** Decoding and the cursor id *)

Section DecodeThenCursor.

Context {dec : BsonDecoder} {conv : ErrorConvention dec} {limits : FrameLimits}.

(** X6.  [FromReader] never resets the cursor memo.  On a record whose cursor id
    is already memoized, a decode, whatever it reads and whatever it returns,
    leaves [getCursorId] returning the id memoized before, without a parse:
    the reply document just decoded is not consulted. *)
Theorem FromReader_keeps_memo (fuel : nat) (op : CommandReplyOp) (r : Reader)
    (res : option error) (op' : CommandReplyOp) (r' : Reader) (n : nat) :
  cursorCached op = true ->
  FromReader fuel op r = Some (res, op', r') ->
  getCursorId {| this := op'; unmarshalCalls := n |}
  = (Go.Returned (cursorId op, None), {| this := op'; unmarshalCalls := n |}).
Proof.
  intros Hc Hrun. apply FromReader_untouched in Hrun.
  destruct Hrun as (_ & _ & _ & Hc' & Hid).
  rewrite getCursorId_cached by (cbn [this]; congruence).
  cbn [this]. rewrite Hid. reflexivity.
Qed.

(** X7.  On a record without a memo, the first [getCursorId] after a decode that
    returned nil hands the first frame read from the stream to the library:
    it returns the id the library finds in it and memoizes it, or returns 0
    with the library's error wrapped, leaving the record as decoded. *)
Theorem getCursorId_after_decode (fuel : nat) (op : CommandReplyOp) (r : Reader)
    (op' : CommandReplyOp) (r' : Reader) (n : nat) :
  cursorCached op = false ->
  FromReader fuel op r = Some (None, op', r') ->
  getCursorId {| this := op'; unmarshalCalls := n |}
  = match Raw_Unmarshal_cursor (bson.document (readSlice r)) with
    | Ok id =>
        (Go.Returned (id, None), memoized {| this := op'; unmarshalCalls := n |} id)
    | Failed e =>
        (Go.Returned (0, Some (unmarshalFailure e)),
         counted {| this := op'; unmarshalCalls := n |})
    end.
Proof.
  intros Hc Hrun. apply FromReader_nil_shape in Hrun.
  destruct Hrun as (new & -> & _).
  destruct (Raw_Unmarshal_cursor (bson.document (readSlice r))) as [id|e] eqn:Hdec.
  - apply (getCursorId_parsed _ (bson.document (readSlice r)) id);
      [exact Hc | reflexivity | exact Hdec].
  - apply (getCursorId_failed _ (bson.document (readSlice r)) e);
      [exact Hc | reflexivity | exact Hdec].
Qed.

(** X8.  After [FromReader] on a new record, whatever it returned, [getCursorId]
    panics exactly when the read of the reply document failed: the record
    then still holds a nil reply, and the type assertion on it panics.  A
    failure of the metadata read leaves a record on which it does not. *)
Theorem getCursorId_panics_iff_no_reply (fuel : nat) (h : MsgHeader) (r : Reader)
    (res : option error) (op' : CommandReplyOp) (r' : Reader) (n : nat) :
  FromReader fuel (newCommandReplyOp h) r = Some (res, op', r') ->
  (panicked (fst (getCursorId {| this := op'; unmarshalCalls := n |}))
   <-> readError r <> None)
  /\ (readError r <> None ->
      snd (getCursorId {| this := op'; unmarshalCalls := n |})
      = {| this := op'; unmarshalCalls := n |}).
Proof.
  intros Hrun.
  assert (Hcase : (readError r <> None /\ op' = newCommandReplyOp h)
                  \/ (readError r = None /\ cursorCached op' = false
                      /\ CommandReply op' = Some (bson.document (readSlice r)))).
  { pose proof Hrun as Hrun0. rewrite FromReader_eq in Hrun.
    destruct (readError r) as [e1|] eqn:H1.
    - left. injection Hrun as _ <- _. split; [discriminate | reflexivity].
    - right. split; [reflexivity|].
      destruct (readError (readRest r)) as [e2|] eqn:H2.
      + injection Hrun as _ <- _. split; reflexivity.
      + pose proof (FromReader_loop_no_error _ _ _ _ _ _ _ _ Hrun) as ->.
        apply FromReader_nil_shape in Hrun0. destruct Hrun0 as (new & -> & _).
        split; reflexivity. }
  destruct Hcase as [[Hfail ->] | (Hok & Hc & Hreply)].
  - destruct (getCursorId_nil {| this := newCommandReplyOp h; unmarshalCalls := n |}
                eq_refl eq_refl) as [msg Hpanic].
    rewrite Hpanic. cbn [fst snd panicked]. split; [tauto | reflexivity].
  - split; [|intros Hne; now contradiction Hne].
    destruct (Raw_Unmarshal_cursor (bson.document (readSlice r))) as [id|e] eqn:Hdec.
    + rewrite (getCursorId_parsed {| this := op'; unmarshalCalls := n |}
                 (bson.document (readSlice r)) id Hc Hreply Hdec).
      cbn [fst panicked]. split; [tauto | intros Hne; now contradiction Hne].
    + rewrite (getCursorId_failed {| this := op'; unmarshalCalls := n |}
                 (bson.document (readSlice r)) e Hc Hreply Hdec).
      cbn [fst panicked]. split; [tauto | intros Hne; now contradiction Hne].
Qed.

(** One call of [getCursorId] changes the memo and nothing else, and parses
    at most once. *)
Lemma getCursorId_memo_only (s : callState) :
  sameButMemo (this s) (this (snd (getCursorId s)))
  /\ (unmarshalCalls s <= unmarshalCalls (snd (getCursorId s)) <= S (unmarshalCalls s))%nat.
Proof.
  destruct (getCursorId_cases s)
    as [[Hc Hrun] | [(Hc & Hnil & msg & Hrun)
       | [(Hc & raw & id & Hraw & Hdec & Hrun) | (Hc & raw & e & Hraw & Hdec & Hrun)]]];
    rewrite Hrun; cbn [snd this unmarshalCalls memoized counted];
    (split; [repeat split | lia]).
Qed.

Lemma getCursorId_times_S (n : nat) (s : callState) :
  snd (getCursorId_times (S n) s) = snd (getCursorId_times n (snd (getCursorId s))).
Proof.
  cbn [getCursorId_times]. destruct (getCursorId s) as [r1 s1]. cbn [snd].
  destruct (getCursorId_times n s1) as [rs s2]. reflexivity.
Qed.

(** X9.  Calls of [getCursorId], any number of them, change the two memo fields
    of the record and nothing else, so [Meta], [getNumReturned],
    [getLatencyMicros] and [getErrors] return after the calls what they
    returned before; [n] calls parse the reply document at most [n] times. *)
Theorem getCursorId_touches_memo_only (n : nat) (s : callState) :
  sameButMemo (this s) (this (snd (getCursorId_times n s)))
  /\ (unmarshalCalls s <= unmarshalCalls (snd (getCursorId_times n s))
      <= unmarshalCalls s + n)%nat
  /\ Meta (this (snd (getCursorId_times n s))) = Meta (this s)
  /\ getNumReturned (this (snd (getCursorId_times n s))) = getNumReturned (this s)
  /\ getLatencyMicros (this (snd (getCursorId_times n s))) = getLatencyMicros (this s)
  /\ getErrors (this (snd (getCursorId_times n s))) = getErrors (this s).
Proof.
  assert (Hsame : sameButMemo (this s) (this (snd (getCursorId_times n s)))
    /\ (unmarshalCalls s <= unmarshalCalls (snd (getCursorId_times n s))
        <= unmarshalCalls s + n)%nat).
  { revert s. induction n as [|n IH]; intros s.
    - cbn [getCursorId_times snd]. split; [repeat split | lia].
    - rewrite getCursorId_times_S.
      destruct (getCursorId_memo_only s) as [(H1 & H2 & H3 & H4 & H5 & H6) Hcalls].
      destruct (IH (snd (getCursorId s))) as [(G1 & G2 & G3 & G4 & G5 & G6) Gcalls].
      split; [repeat split; congruence | lia]. }
  destruct Hsame as [(H1 & H2 & H3 & H4 & H5 & H6) Hcalls].
  split; [repeat split; assumption|]. split; [exact Hcalls|].
  split; [unfold Meta; rewrite H2, H3, H4; reflexivity|].
  split; [unfold getNumReturned; rewrite H5; reflexivity|].
  split; [unfold getLatencyMicros; rewrite H6; reflexivity|].
  apply getErrors_Docs, H5.
Qed.

End DecodeThenCursor.

Lemma FromReader_keeps_memo_witness :
  @FromReader limits48M 1 memoReply (emptyDoc ++ cursorDoc ++ xDoc)
  = Some (None, decodedInto memoReply (replyOf (headerFor 55) emptyDoc cursorDoc [xDoc]), [])
  /\ @getCursorId fragmentDecoder
       (fresh (decodedInto memoReply (replyOf (headerFor 55) emptyDoc cursorDoc [xDoc])))
     = (Go.Returned (42, None),
        fresh (decodedInto memoReply (replyOf (headerFor 55) emptyDoc cursorDoc [xDoc])))
  /\ fst (@getCursorId fragmentDecoder
            (fresh (replyOf (headerFor 55) emptyDoc cursorDoc [xDoc])))
     = Go.Returned (0, None).
Proof.
  assert (Hrun :
    @FromReader limits48M 1 memoReply (emptyDoc ++ cursorDoc ++ xDoc)
    = Some (None, decodedInto memoReply (replyOf (headerFor 55) emptyDoc cursorDoc [xDoc]), []))
    by (vm_compute; reflexivity).
  split; [exact Hrun|]. split; [|vm_compute; reflexivity].
  exact (@FromReader_keeps_memo fragmentDecoder limits48M 1%nat memoReply _ _ _ _ 0%nat
           eq_refl Hrun).
Defined.

Lemma getCursorId_after_decode_witness :
  @FromReader limits48M 1 (newCommandReplyOp (headerFor 55)) (cursorDoc ++ emptyDoc ++ xDoc)
  = Some (None, replyOf (headerFor 55) cursorDoc emptyDoc [xDoc], [])
  /\ fst (@getCursorId fragmentDecoder (fresh (replyOf (headerFor 55) cursorDoc emptyDoc [xDoc])))
     = Go.Returned (42, None).
Proof.
  assert (Hrun :
    @FromReader limits48M 1 (newCommandReplyOp (headerFor 55)) (cursorDoc ++ emptyDoc ++ xDoc)
    = Some (None, replyOf (headerFor 55) cursorDoc emptyDoc [xDoc], []))
    by (vm_compute; reflexivity).
  split; [exact Hrun|]. unfold fresh.
  rewrite (@getCursorId_after_decode fragmentDecoder limits48M 1%nat
             (newCommandReplyOp (headerFor 55)) _ _ _ 0%nat eq_refl Hrun).
  vm_compute. reflexivity.
Defined.

Lemma getCursorId_panics_iff_no_reply_witness :
  @FromReader limits48M 0 (newCommandReplyOp (headerFor 55)) []
  = Some (Some TruncatedInputError, newCommandReplyOp (headerFor 55), [])
  /\ panicked (fst (@getCursorId fragmentDecoder (fresh (newCommandReplyOp (headerFor 55))))).
Proof.
  assert (Hrun :
    @FromReader limits48M 0 (newCommandReplyOp (headerFor 55)) []
    = Some (Some TruncatedInputError, newCommandReplyOp (headerFor 55), []))
    by (vm_compute; reflexivity).
  split; [exact Hrun|].
  apply (proj1 (@getCursorId_panics_iff_no_reply fragmentDecoder limits48M 0%nat
                  (headerFor 55) [] _ _ _ 0%nat Hrun)).
  vm_compute. intros H. discriminate H.
Defined.

(** ** Rendering and the cursor memo *)

Section RenderFrame.

Context {rnd : Rendering} {dec : BsonDecoder}.

(** The record passed to a rendering step only ends up in its error. *)
Lemma renderJSON_any_record (op op' : CommandReplyOp) (v : goValue) :
  match renderJSON op v with
  | Ok text => renderJSON op' v = Ok text
  | Failed _ => exists e, renderJSON op' v = Failed e
  end.
Proof.
  unfold renderJSON. destruct (ConvertBSONValueToJSON v) as [doc|err].
  - destruct (json_Marshal doc) as [text|err]; [reflexivity | eexists; reflexivity].
  - eexists. reflexivity.
Qed.

Lemma getOpBodyString_sameButMemo (op op' : CommandReplyOp) :
  sameButMemo op op' ->
  match getOpBodyString op with
  | (a, b, c, None) => getOpBodyString op' = (a, b, c, None)
  | (_, _, _, Some _) => exists e, getOpBodyString op' = (""%string, ""%string, ""%string, Some e)
  end.
Proof.
  intros (_ & Hm & Hc & Ho & _). unfold getOpBodyString. rewrite Hm, Hc, Ho.
  pose proof (renderJSON_any_record op op' (Iface (CommandReply op))) as H1.
  destruct (renderJSON op (Iface (CommandReply op))) as [a|e1].
  - rewrite H1.
    pose proof (renderJSON_any_record op op' (Iface (Metadata op))) as H2.
    destruct (renderJSON op (Iface (Metadata op))) as [b|e2].
    + rewrite H2. destruct (negb (Go.len (OutputDocs op) =? 0)).
      * pose proof (renderJSON_any_record op op' (IfaceSlice (OutputDocs op))) as H3.
        destruct (renderJSON op (IfaceSlice (OutputDocs op))) as [c|e3].
        -- rewrite H3. reflexivity.
        -- destruct H3 as [e H3]. rewrite H3. eexists. reflexivity.
      * reflexivity.
    + destruct H2 as [e H2]. rewrite H2. eexists. reflexivity.
  - destruct H1 as [e H1]. rewrite H1. eexists. reflexivity.
Qed.

(** X10.  Calls of [getCursorId] do not change what a record prints: when the
    three renderings of a record succeed, [getOpBodyString], [String] and
    [Abbreviated] return after any number of calls of [getCursorId] what
    they returned before; when a rendering fails, it still fails after the
    calls (the error then carries the record as it is, memo included). *)
Theorem getCursorId_keeps_rendering (n : nat) (s : callState) (chars : Z) :
  match getOpBodyString (this s) with
  | (a, b, c, None) =>
      getOpBodyString (this (snd (getCursorId_times n s))) = (a, b, c, None)
      /\ String' (this (snd (getCursorId_times n s))) = String' (this s)
      /\ Abbreviated (this (snd (getCursorId_times n s))) chars = Abbreviated (this s) chars
  | (_, _, _, Some _) =>
      exists e,
        getOpBodyString (this (snd (getCursorId_times n s)))
        = (""%string, ""%string, ""%string, Some e)
  end.
Proof.
  assert (Hsame : sameButMemo (this s) (this (snd (getCursorId_times n s)))).
  { revert s. induction n as [|n IH]; intros s.
    - cbn [getCursorId_times snd]. repeat split.
    - rewrite getCursorId_times_S.
      destruct (getCursorId_memo_only s) as [(H1 & H2 & H3 & H4 & H5 & H6) _].
      destruct (IH (snd (getCursorId s))) as (G1 & G2 & G3 & G4 & G5 & G6).
      repeat split; congruence. }
  pose proof (getOpBodyString_sameButMemo _ _ Hsame) as Hbody.
  unfold String', Abbreviated.
  destruct (getOpBodyString (this s)) as [[[a b] c] [e|]].
  - exact Hbody.
  - rewrite Hbody. repeat split.
Qed.

End RenderFrame.
